(** * PPTX-to-TXT converter: the slide text extractor of [app.py]

    A shallow embedding of [extract_text_from_pptx], of its inner
    [get_shapes_with_abs_position], of [allowed_file] and of the
    [/api/convert-to-text] handler, followed by the properties the
    specification states about them.

    Conventions of the embedding.
    - A Python [int] is a [Z]; EMU offsets and placeholder indices are
      unbounded integers.
    - A Python [str] is a [string] whose characters are the code points
      below 256; [isspace] and [lower] are the restrictions of Python's
      to that range.
    - An attribute that may be absent ([top], [left], [text]) or whose
      access may raise ([placeholder_format]) is an [option] field.
    - A raised exception is the [Raise] branch of [result], carrying the
      text [str(e)] of the exception.
    - The set [added_placeholder_idxs] is a [gset Z]. *)

From Stdlib Require Import ZArith String Ascii List Lia.
From Stdlib Require Import DecimalString DecimalPos DecimalZ.
From Stdlib Require Import Sorting.Sorted Sorting.Permutation.
From stdpp Require Import base list gmap sets strings.

Open Scope Z_scope.

(* [set_solver] clears hypotheses by names that need not exist. *)
Set Warnings "-clear-no-such-hyp".

(* ================================================================= *)
(** ** Exceptions *)

Inductive result (A : Type) : Type :=
| Ok (a : A)
| Raise (msg : string).
Arguments Ok {A} a.
Arguments Raise {A} msg.

#[global] Instance result_ret : MRet result := fun _ a => Ok a.
#[global] Instance result_bind : MBind result := fun _ _ f m =>
  match m with
  | Ok a => f a
  | Raise msg => Raise msg
  end.

(** [for x in xs: st = body st x], stopping at the first exception. *)
Definition for_each {St A : Type} (body : St -> A -> result St)
  : list A -> St -> result St :=
  fix loop (xs : list A) (st : St) : result St :=
    match xs with
    | [] => Ok st
    | x :: rest => st' ← body st x; loop rest st'
    end.

(* ================================================================= *)
(** ** The Python builtins the program calls *)

Module Py.

(** The newline character and the one-character string ["\n"]. *)
Definition newline : ascii := ascii_of_nat 10.
Definition nl : string := String newline EmptyString.

(** [str(i)] for an integer. *)
Definition str (i : Z) : string := NilZero.string_of_int (Z.to_int i).

(** [c.isspace()] on the code points below 256: tab, line feed,
    vertical tab, form feed, carriage return, the four separators
    0x1c..0x1f, space, NEL (0x85) and the no-break space (0xa0). *)
Definition isspace (c : ascii) : bool :=
  let n := nat_of_ascii c in
  ((9 <=? n) && (n <=? 13) || (28 <=? n) && (n <=? 32)
   || (n =? 133) || (n =? 160))%nat.

Fixpoint lstrip (s : string) : string :=
  match s with
  | EmptyString => EmptyString
  | String c rest => if isspace c then lstrip rest else s
  end.

Fixpoint rstrip (s : string) : string :=
  match s with
  | EmptyString => EmptyString
  | String c rest =>
      match rstrip rest with
      | EmptyString => if isspace c then EmptyString else String c EmptyString
      | kept => String c kept
      end
  end.

(** [s.strip()] *)
Definition strip (s : string) : string := rstrip (lstrip s).

(** [c.lower()] on the code points below 256: A..Z and the accented
    capitals 0xc0..0xde other than the multiplication sign 0xd7. *)
Definition lower_char (c : ascii) : ascii :=
  let n := nat_of_ascii c in
  if ((65 <=? n) && (n <=? 90)
      || (192 <=? n) && (n <=? 222) && negb (n =? 215))%nat
  then ascii_of_nat (n + 32) else c.

Fixpoint lower (s : string) : string :=
  match s with
  | EmptyString => EmptyString
  | String c rest => String (lower_char c) (lower rest)
  end.

(** [sep in s] for a one-character [sep]. *)
Fixpoint contains (sep : ascii) (s : string) : bool :=
  match s with
  | EmptyString => false
  | String c rest => if Ascii.eqb c sep then true else contains sep rest
  end.

(** [s.rsplit(sep, 1)]: split once at the last [sep]; a string
    without [sep] comes back alone. *)
Fixpoint rsplit1 (sep : ascii) (s : string) : list string :=
  match s with
  | EmptyString => [EmptyString]
  | String c rest =>
      match rsplit1 sep rest with
      | [head; tail] => [String c head; tail]
      | _ => if Ascii.eqb c sep then [EmptyString; rest] else [s]
      end
  end.

(** [sep.join(parts)] *)
Definition join (sep : string) (parts : list string) : string :=
  String.concat sep parts.

(** [enumerate(xs, start)] *)
Fixpoint enumerate {A : Type} (xs : list A) (start : Z) : list (Z * A) :=
  match xs with
  | [] => []
  | x :: rest => (start, x) :: enumerate rest (start + 1)
  end.

(** [sorted(xs, key=...)] with [leb a b] standing for
    [key(a) <= key(b)]. The builtin is a stable ascending sort; it is
    given here by insertion from the right, each element going in
    front of the first one whose key is not smaller. *)
Section Sorted.
Context {A : Type} (leb : A -> A -> bool).

Fixpoint insert_sorted (x : A) (l : list A) : list A :=
  match l with
  | [] => [x]
  | y :: rest => if leb x y then x :: l else y :: insert_sorted x rest
  end.

Fixpoint sorted (l : list A) : list A :=
  match l with
  | [] => []
  | x :: rest => insert_sorted x (sorted rest)
  end.
End Sorted.

(** [(a1, a2) <= (b1, b2)] on tuples of integers. *)
Definition tuple_leb (a b : Z * Z) : bool :=
  (a.1 <? b.1) || (a.1 =? b.1) && (a.2 <=? b.2).

End Py.

(* ================================================================= *)
(** ** The parsed presentation (python-pptx objects) *)

Module MSO_SHAPE_TYPE.
Inductive t : Set :=
| AUTO_SHAPE | CALLOUT | CANVAS | CHART | COMMENT | DIAGRAM
| EMBEDDED_OLE_OBJECT | FORM_CONTROL | FREEFORM | GROUP | IGX_GRAPHIC
| INK | INK_COMMENT | LINE | LINKED_OLE_OBJECT | LINKED_PICTURE | MEDIA
| OLE_CONTROL_OBJECT | PICTURE | PLACEHOLDER | SCRIPT_ANCHOR | TABLE
| TEXT_BOX | TEXT_EFFECT | WEB_VIDEO | MIXED.

#[global] Instance eq_dec : EqDecision t.
Proof. solve_decision. Defined.
End MSO_SHAPE_TYPE.

Module PP_PLACEHOLDER.
Inductive t : Set :=
| BITMAP | BODY | CENTER_TITLE | CHART | DATE | FOOTER | HEADER
| MEDIA_CLIP | OBJECT | ORG_CHART | PICTURE | SLIDE_IMAGE | SLIDE_NUMBER
| SUBTITLE | TABLE | TITLE | VERTICAL_BODY | VERTICAL_OBJECT
| VERTICAL_TITLE | MIXED.

#[global] Instance eq_dec : EqDecision t.
Proof. solve_decision. Defined.
End PP_PLACEHOLDER.

(** [shape.placeholder_format] *)
Record PlaceholderFormat : Set := {
  idx : Z;
  type : PP_PLACEHOLDER.t
}.

(** A shape as the program reads it. [top] and [left] are [None] when
    the attribute is missing or is Python's [None]; [shape_type] is
    [None] when python-pptx reports no type; [placeholder_format] is
    [Some] exactly for the shapes with [is_placeholder]; [text] is
    [Some] exactly when [hasattr(shape, "text")]; [shapes] are the
    members of a group shape. *)
#[local] Unset Elimination Schemes.
Inductive Shape : Type := Build_Shape {
  top : option Z;
  left : option Z;
  shape_type : option MSO_SHAPE_TYPE.t;
  placeholder_format : option PlaceholderFormat;
  text : option string;
  shapes : list Shape
}.
#[local] Set Elimination Schemes.

Definition is_placeholder (shape : Shape) : bool :=
  match placeholder_format shape with Some _ => true | None => false end.

(** Reading [shape.placeholder_format] raises [ValueError] on a shape
    that is not a placeholder. *)
Definition get_placeholder_format (shape : Shape) : result PlaceholderFormat :=
  match placeholder_format shape with
  | Some pf => Ok pf
  | None => Raise "shape is not a placeholder"
  end.

Record SlideMaster : Type := {
  master_placeholders : list Shape
}.

Record SlideLayout : Type := {
  layout_placeholders : list Shape;
  slide_master : SlideMaster
}.

Record Slide : Type := {
  slide_shapes : list Shape;
  slide_layout : SlideLayout
}.

Record Presentation : Type := {
  slides : list Slide
}.

(** The dictionaries [{'shape': ..., 'top': ..., 'left': ...}]. *)
Module Info.
Record t : Type := mk {
  shape : Shape;
  top : Z;
  left : Z
}.
End Info.

(* ================================================================= *)
(** ** [get_shapes_with_abs_position] *)

(** [x.emu if hasattr(shape, ...) and x is not None else 0] *)
Definition emu_or_0 (x : option Z) : Z :=
  match x with
  | Some v => v
  | None => 0
  end.

Definition is_group (shape : Shape) : bool :=
  bool_decide (shape_type shape = Some MSO_SHAPE_TYPE.GROUP).

(** One iteration of the loop over [shapes]: [shape_info_list] after
    the shape has been handled. The recursive call on [shape.shapes] is
    the same loop, started on an empty list. *)
Fixpoint flatten_step (parent_top parent_left : Z)
    (shape_info_list : list Info.t) (shape : Shape) {struct shape}
  : list Info.t :=
  let shape_top := emu_or_0 (top shape) in
  let shape_left := emu_or_0 (left shape) in
  let abs_top := parent_top + shape_top in
  let abs_left := parent_left + shape_left in
  if is_group shape then
    shape_info_list
      ++ fold_left (flatten_step abs_top abs_left) (shapes shape) []
  else
    shape_info_list ++ [Info.mk shape abs_top abs_left].

Definition get_shapes_with_abs_position (shapes : list Shape)
    (parent_top parent_left : Z) : list Info.t :=
  fold_left (flatten_step parent_top parent_left) shapes [].

(* ================================================================= *)
(** ** [extract_text_from_pptx] *)

(** The set comprehension
    [{info['shape'].placeholder_format.idx for info in all_shape_infos
      if info['shape'].is_placeholder}]. *)
Definition collect_idx (acc : gset Z) (info : Info.t) : result (gset Z) :=
  if is_placeholder (Info.shape info) then
    pf ← get_placeholder_format (Info.shape info);
    Ok (acc ∪ {[idx pf]})
  else Ok acc.

(** Body of [for shape in slide.slide_layout.placeholders]; the state
    is the pair of [all_shape_infos] and [added_placeholder_idxs]. *)
Definition layout_step (st : list Info.t * gset Z) (shape : Shape)
  : result (list Info.t * gset Z) :=
  let '(all_shape_infos, added_placeholder_idxs) := st in
  pf ← get_placeholder_format shape;
  if decide (idx pf ∉ added_placeholder_idxs) then
    let top := emu_or_0 (top shape) in
    let left := emu_or_0 (left shape) in
    Ok (all_shape_infos ++ [Info.mk shape top left],
        added_placeholder_idxs ∪ {[idx pf]})
  else Ok st.

(** Body of [for shape in slide.slide_layout.slide_master.placeholders];
    the set is read and left as it is. *)
Definition master_step (added_placeholder_idxs : gset Z)
    (all_shape_infos : list Info.t) (shape : Shape) : result (list Info.t) :=
  pf ← get_placeholder_format shape;
  if decide (idx pf ∉ added_placeholder_idxs) then
    let top := emu_or_0 (top shape) in
    let left := emu_or_0 (left shape) in
    Ok (all_shape_infos ++ [Info.mk shape top left])
  else Ok all_shape_infos.

(** [hasattr(shape, "text")] *)
Definition has_text (shape : Shape) : bool :=
  match text shape with Some _ => true | None => false end.

(** [key(a) <= key(b)] for [key=lambda info: (info['top'], info['left'])]. *)
Definition key (info : Info.t) : Z * Z := (Info.top info, Info.left info).
Definition key_leb (a b : Info.t) : bool := Py.tuple_leb (key a) (key b).

(** [shape.is_placeholder and
     shape.placeholder_format.type == PP_PLACEHOLDER.SLIDE_NUMBER] *)
Definition is_slide_number (shape : Shape) : result bool :=
  if is_placeholder shape then
    pf ← get_placeholder_format shape;
    Ok (bool_decide (type pf = PP_PLACEHOLDER.SLIDE_NUMBER))
  else Ok false.

Definition nonempty (s : string) : bool :=
  match s with EmptyString => false | String _ _ => true end.

(** Body of [for info in sorted_shape_infos], on [slide_text]. *)
Definition text_step (i : Z) (slide_text : string) (info : Info.t)
  : result string :=
  let shape := Info.shape info in
  is_slide_number shape ≫= λ number : bool,
  let text :=
    if number then Py.str i
    else match text shape with
         | Some content => Py.strip content
         | None => EmptyString
         end in
  if nonempty text then Ok (slide_text +:+ text +:+ Py.nl)
  else Ok slide_text.

(** [f"=== SLIDE {i} ===\n"] *)
Definition header (i : Z) : string :=
  "=== SLIDE " +:+ Py.str i +:+ " ===" +:+ Py.nl.

(** Lines 53 to 70: the candidate records of slide [i]. *)
Definition all_shape_infos_of (slide : Slide) : result (list Info.t) :=
  let all_shape_infos := get_shapes_with_abs_position (slide_shapes slide) 0 0 in
  added_placeholder_idxs ← for_each collect_idx all_shape_infos ∅;
  st ← for_each layout_step (layout_placeholders (slide_layout slide))
         (all_shape_infos, added_placeholder_idxs);
  for_each (master_step st.2)
    (master_placeholders (slide_master (slide_layout slide))) st.1.

(** Lines 71 and 72. *)
Definition text_shape_infos_of (all_shape_infos : list Info.t) : list Info.t :=
  List.filter (fun info => has_text (Info.shape info)) all_shape_infos.

Definition sorted_shape_infos_of (all_shape_infos : list Info.t) : list Info.t :=
  Py.sorted key_leb (text_shape_infos_of all_shape_infos).

(** One iteration of [for i, slide in enumerate(presentation.slides, 1)]:
    the value of [slide_text] appended to [text_content]. *)
Definition slide_text_of (i : Z) (slide : Slide) : result string :=
  let slide_text := header i in
  all_shape_infos ← all_shape_infos_of slide;
  for_each (text_step i) (sorted_shape_infos_of all_shape_infos) slide_text.

Definition slide_step (text_content : list string) (entry : Z * Slide)
  : result (list string) :=
  slide_text ← slide_text_of entry.1 entry.2;
  Ok (text_content ++ [slide_text]).

(** The body of the [try] after the presentation has been opened. *)
Definition extract_text (presentation : Presentation) : result string :=
  text_content ← for_each slide_step (Py.enumerate (slides presentation) 1) [];
  Ok (Py.join Py.nl text_content).

Section Extraction.
(** [Presentation(file_path)], the python-pptx parser: the parsed
    document, or the exception it raises. *)
Variable open_presentation : string -> result Presentation.

Definition extract_text_from_pptx (file_path : string) : result string :=
  match presentation ← open_presentation file_path;
        extract_text presentation with
  | Ok text_ => Ok text_
  | Raise e => Raise ("Error processing PowerPoint file: " +:+ e)
  end.
End Extraction.

(* ================================================================= *)
(** ** [allowed_file] and the [/api/convert-to-text] handler *)

Definition UPLOAD_FOLDER : string := "uploads".
Definition ALLOWED_EXTENSIONS : gset string := {[ "pptx"; "ppt" ]}.

(** [parts[1]], raising [IndexError] on a shorter list. *)
Definition item1 (parts : list string) : result string :=
  match parts with
  | _ :: second :: _ => Ok second
  | _ => Raise "list index out of range"
  end.

Definition allowed_file (filename : string) : result bool :=
  if Py.contains "." filename then
    ext ← item1 (Py.rsplit1 "." filename);
    Ok (bool_decide (Py.lower ext ∈ ALLOWED_EXTENSIONS))
  else Ok false.

(** The values handed to [jsonify]. *)
#[local] Unset Elimination Schemes.
Inductive Json : Type :=
| JStr (s : string)
| JBool (b : bool)
| JObj (fields : list (string * Json)).
#[local] Set Elimination Schemes.

(** A view's return value: [jsonify(...), status]. *)
Record Response : Type := {
  body : Json;
  status : Z
}.

(** An uploaded part, [werkzeug.FileStorage]. *)
Record FileStorage : Type := {
  filename : string;
  content : string
}.

(** The request as the view reads it: [request.files] of a request that
    the framework has routed to the view (method POST, body within
    [MAX_CONTENT_LENGTH]). *)
Record Request : Type := {
  files : gmap string FileStorage
}.

(** What the handler does to the outside: the upload folder it writes to
    and the calls it makes, oldest first. *)
Inductive Call : Type :=
| CallSave (filepath : string)
| CallExtract (filepath : string)
| CallRemove (filepath : string).

Record World : Type := {
  fs : gmap string string;
  calls : list Call
}.

Definition record_call (c : Call) (w : World) : World :=
  {| fs := fs w; calls := calls w ++ [c] |}.

Section Server.
(** [werkzeug.utils.secure_filename] *)
Variable secure_filename : string -> string.
(** [file.save(filepath)]: the file system after the write, or the
    exception raised. *)
Variable save : FileStorage -> string -> gmap string string
                -> result (gmap string string).
(** The python-pptx parser, on the bytes of a file. *)
Variable parse : string -> result Presentation.

(** [os.path.join(app.config['UPLOAD_FOLDER'], filename)] *)
Definition upload_path (name : string) : string :=
  UPLOAD_FOLDER +:+ "/" +:+ name.

(** [Presentation(file_path)] on a file system. *)
Definition open_presentation_in (files_ : gmap string string)
    (file_path : string) : result Presentation :=
  match files_ !! file_path with
  | Some bytes => parse bytes
  | None => Raise ("Package not found at '" +:+ file_path +:+ "'")
  end.

(** The [try] block of the handler: the response and the world it
    leaves to [finally]. *)
Definition save_and_extract (file : FileStorage) (name filepath : string)
    (w : World) : Response * World :=
  let w1 := record_call (CallSave filepath) w in
  match save file filepath (fs w1) with
  | Raise e => ({| body := JObj [("error", JStr e)]; status := 500 |}, w1)
  | Ok files_ =>
      let w2 := record_call (CallExtract filepath)
                  {| fs := files_; calls := calls w1 |} in
      match extract_text_from_pptx (open_presentation_in (fs w2)) filepath with
      | Ok extracted_text =>
          ({| body := JObj [("success", JBool true);
                            ("text", JStr extracted_text);
                            ("filename", JStr name)];
              status := 200 |}, w2)
      | Raise e => ({| body := JObj [("error", JStr e)]; status := 500 |}, w2)
      end
  end.

(** The [finally] block. *)
Definition cleanup (filepath : string) (w : World) : World :=
  if decide (is_Some (fs w !! filepath)) then
    record_call (CallRemove filepath)
      {| fs := delete filepath (fs w); calls := calls w |}
  else w.

(** The view function. An exception that escapes it (none does, see
    [allowed_file_spec]) would be the framework's response 500. *)
Definition convert_pptx_to_text (request : Request) (w : World)
  : Response * World :=
  match files request !! "file" with
  | None =>
      ({| body := JObj [("error", JStr "No file provided")];
          status := 400 |}, w)
  | Some file =>
      match (if bool_decide (filename file = "") then Ok true
             else allowed_file (filename file) ≫= λ allowed : bool,
                  Ok (negb allowed)) with
      | Raise e =>
          ({| body := JObj [("error", JStr e)]; status := 500 |}, w)
      | Ok true =>
          ({| body := JObj [("error", JStr "Invalid file or file type")];
              status := 400 |}, w)
      | Ok false =>
          let name := secure_filename (filename file) in
          let filepath := upload_path name in
          let '(response, w') := save_and_extract file name filepath w in
          (response, cleanup filepath w')
      end
  end.
End Server.

(* ================================================================= *)
(** ** The [/api/convert-to-pdf] handler *)

(** [parts[0]], raising [IndexError] on an empty list. *)
Definition item0 (parts : list string) : result string :=
  match parts with
  | first :: _ => Ok first
  | [] => Raise "list index out of range"
  end.

(** [filename.rsplit('.', 1)[0] + '.pdf'] *)
Definition pdf_filename_of (filename : string) : result string :=
  stem ← item0 (Py.rsplit1 "." filename);
  Ok (stem +:+ ".pdf").

(** How [subprocess.run([...], check=True, timeout=60)] ends, with the
    file system the process leaves: exit status 0; no end within the 60
    seconds; or another exception ([CalledProcessError] for a non-zero
    exit status, [FileNotFoundError] when there is no [soffice]) with
    its text. *)
Inductive Completion : Type :=
| Completed (files_ : gmap string string)
| TimeoutExpired (files_ : gmap string string)
| ProcessError (msg : string) (files_ : gmap string string).

(** What the [try] block of the view raises, as the [except] clauses
    tell it apart. *)
Inductive Raised : Type :=
| RaisedTimeout
| RaisedOther (msg : string).

(** The calls of the view, oldest first. *)
Inductive PdfCall : Type :=
| PdfSave (filepath : string)
| PdfConvert (filepath : string)
| PdfSend (pdf_filename : string)
| PdfRemove (filepath : string).

Record PdfWorld : Type := {
  pdf_fs : gmap string string;
  pdf_calls : list PdfCall
}.

Definition record_pdf_call (c : PdfCall) (files_ : gmap string string)
    (w : PdfWorld) : PdfWorld :=
  {| pdf_fs := files_; pdf_calls := pdf_calls w ++ [c] |}.

Section PdfServer.
(** [werkzeug.utils.secure_filename] *)
Variable secure_filename : string -> string.
(** [file.save(filepath)] *)
Variable save : FileStorage -> string -> gmap string string
                -> result (gmap string string).
(** [soffice --headless --convert-to pdf --outdir <outdir> <filepath>]
    run by [subprocess.run]. *)
Variable soffice : string -> string -> gmap string string -> Completion.
(** The response object of [send_from_directory] and the function:
    directory, file name, file system. *)
Variable FileResponse : Type.
Variable send_from_directory : string -> string -> gmap string string
                               -> result FileResponse.

(** A view's return value: [jsonify(...), status], or the response of
    [send_from_directory]. *)
Inductive Reply : Type :=
| JsonReply (response : Response)
| FileReply (response : FileResponse).

(** The [try] block: what it returns or raises, and the world it leaves. *)
Definition convert_and_send (file : FileStorage)
    (filepath pdf_filename pdf_filepath : string) (w : PdfWorld)
  : (Raised + Reply) * PdfWorld :=
  let w1 := record_pdf_call (PdfSave filepath) (pdf_fs w) w in
  match save file filepath (pdf_fs w1) with
  | Raise e => (inl (RaisedOther e), w1)
  | Ok files1 =>
      match soffice UPLOAD_FOLDER filepath files1 with
      | TimeoutExpired files2 =>
          (inl RaisedTimeout, record_pdf_call (PdfConvert filepath) files2 w1)
      | ProcessError e files2 =>
          (inl (RaisedOther e), record_pdf_call (PdfConvert filepath) files2 w1)
      | Completed files2 =>
          let w2 := record_pdf_call (PdfConvert filepath) files2 w1 in
          if decide (is_Some (files2 !! pdf_filepath)) then
            let w3 := record_pdf_call (PdfSend pdf_filename) files2 w2 in
            match send_from_directory UPLOAD_FOLDER pdf_filename files2 with
            | Ok response => (inr (FileReply response), w3)
            | Raise e => (inl (RaisedOther e), w3)
            end
          else
            (inl (RaisedOther "PDF conversion failed, output file not found."),
             w2)
      end
  end.

(** The [except] clauses. *)
Definition pdf_error_reply (raised : Raised) : Reply :=
  match raised with
  | RaisedTimeout =>
      JsonReply
        {| body := JObj [("error",
                          JStr "PDF conversion timed out after 60 seconds.")];
           status := 500 |}
  | RaisedOther e =>
      JsonReply
        {| body := JObj [("error", JStr ("PDF conversion failed: " +:+ e))];
           status := 500 |}
  end.

(** One [if os.path.exists(path): os.remove(path)]. *)
Definition remove_if_exists (path : string) (w : PdfWorld) : PdfWorld :=
  if decide (is_Some (pdf_fs w !! path)) then
    record_pdf_call (PdfRemove path) (delete path (pdf_fs w)) w
  else w.

(** The [finally] block. *)
Definition pdf_cleanup (filepath pdf_filepath : string) (w : PdfWorld)
  : PdfWorld :=
  remove_if_exists pdf_filepath (remove_if_exists filepath w).

(** The view function. An exception outside the [try] (none is raised,
    see [allowed_file_spec] and [pdf_filename_of_spec]) would be the
    framework's response 500. *)
Definition convert_pptx_to_pdf (request : Request) (w : PdfWorld)
  : Reply * PdfWorld :=
  match files request !! "file" with
  | None =>
      (JsonReply {| body := JObj [("error", JStr "No file provided")];
                    status := 400 |}, w)
  | Some file =>
      match (if bool_decide (filename file = "") then Ok true
             else allowed_file (filename file) ≫= λ allowed : bool,
                  Ok (negb allowed)) with
      | Raise e =>
          (JsonReply {| body := JObj [("error", JStr e)]; status := 500 |}, w)
      | Ok true =>
          (JsonReply
             {| body := JObj [("error", JStr "Invalid file or file type")];
                status := 400 |}, w)
      | Ok false =>
          let name := secure_filename (filename file) in
          let filepath := upload_path name in
          match pdf_filename_of name with
          | Raise e =>
              (JsonReply {| body := JObj [("error", JStr e)]; status := 500 |},
               w)
          | Ok pdf_filename =>
              let pdf_filepath := upload_path pdf_filename in
              let '(outcome, w') :=
                convert_and_send file filepath pdf_filename pdf_filepath w in
              (match outcome with
               | inr reply => reply
               | inl raised => pdf_error_reply raised
               end,
               pdf_cleanup filepath pdf_filepath w')
          end
      end
  end.
End PdfServer.

Arguments JsonReply {FileResponse} response.
Arguments FileReply {FileResponse} response.
Arguments pdf_error_reply {FileResponse} raised.
Arguments convert_and_send save soffice {FileResponse} send_from_directory
  file filepath pdf_filename pdf_filepath w.
Arguments convert_pptx_to_pdf secure_filename save soffice {FileResponse}
  send_from_directory request w.

(* ================================================================= *)
(** * The vocabulary of the specification *)

(** ** Shape trees (section 4.1) *)

(** Induction on a shape tree: the property may be assumed of every
    member of a group. *)
Fixpoint Shape_ind (P : Shape -> Prop)
    (step : forall t l st pf tx members,
        Forall P members -> P (Build_Shape t l st pf tx members))
    (shape : Shape) {struct shape} : P shape :=
  match shape with
  | Build_Shape t l st pf tx members =>
      step t l st pf tx members
        ((fix all (ms : list Shape) : Forall P ms :=
            match ms with
            | [] => @List.Forall_nil _ P
            | m :: rest => @List.Forall_cons _ P m rest (Shape_ind P step m) (all rest)
            end) members)
  end.

(** The specification's view of a shape tree: every non-group shape
    that can be reached through groups, each with the chain of groups
    that enclose it, outermost first, in the order of a pre-order walk. *)
Fixpoint leaves_of (ancestors : list Shape) (shape : Shape) {struct shape}
  : list (list Shape * Shape) :=
  if is_group shape then
    flat_map (leaves_of (ancestors ++ [shape])) (shapes shape)
  else [(ancestors, shape)].

Definition leaves (shapes : list Shape) : list (list Shape * Shape) :=
  flat_map (leaves_of []) shapes.

(** [reaches shapes chain s]: [s] is a member of [shapes], or of a
    group reached from [shapes]; [chain] lists the groups gone through. *)
Inductive reaches : list Shape -> list Shape -> Shape -> Prop :=
| reaches_member shapes_ s :
    In s shapes_ -> reaches shapes_ [] s
| reaches_inside shapes_ g chain s :
    In g shapes_ -> is_group g = true -> reaches (shapes g) chain s ->
    reaches shapes_ (g :: chain) s.

(** The number of non-group shapes of a tree. *)
Fixpoint count_leaves (shape : Shape) : nat :=
  if is_group shape then
    fold_right (fun member n => (count_leaves member + n)%nat) 0%nat (shapes shape)
  else 1%nat.

(** The offsets of a chain of groups, added up. *)
Definition sum_top (chain : list Shape) : Z :=
  fold_right (fun g acc => emu_or_0 (top g) + acc) 0 chain.

Definition sum_left (chain : list Shape) : Z :=
  fold_right (fun g acc => emu_or_0 (left g) + acc) 0 chain.

(** The record the specification asks for: own offset plus the offsets
    of all enclosing groups. *)
Definition absolute (entry : list Shape * Shape) : Info.t :=
  Info.mk entry.2
    (sum_top entry.1 + emu_or_0 (top entry.2))
    (sum_left entry.1 + emu_or_0 (left entry.2)).

(** An entry of [leaves_of]: the shape itself when it is not a group,
    otherwise something reached inside it. *)
Definition leaf_entry (ancestors : list Shape) (shape : Shape)
    (entry : list Shape * Shape) : Prop :=
  exists chain,
    entry.1 = ancestors ++ chain /\ is_group entry.2 = false /\
    ((chain = [] /\ entry.2 = shape) \/
     (exists inner, chain = shape :: inner /\ is_group shape = true /\
                    reaches (shapes shape) inner entry.2)).

(** ** Candidate records and text lines (sections 4.2 and 4.3) *)

(** [leb a b] holds. *)
Definition holds {A : Type} (leb : A -> A -> bool) (a b : A) : Prop :=
  leb a b = true.

(** The element has key [k]. *)
Definition has_key {A K : Type} `{EqDecision K} (key_of : A -> K) (k : K)
    (a : A) : bool :=
  bool_decide (key_of a = k).

(** The order of the keys [(top, left)]: top first, left on equal tops. *)
Definition key_le (a b : Info.t) : Prop :=
  Info.top a < Info.top b
  \/ (Info.top a = Info.top b /\ Info.left a <= Info.left b).

(** Concatenation of a list of strings. *)
Definition concat_all (parts : list string) : string :=
  fold_right String.append "" parts.

(** [placeholderIndex] of a shape, for a placeholder. *)
Definition shape_idx (shape : Shape) : option Z :=
  match placeholder_format shape with
  | Some pf => Some (idx pf)
  | None => None
  end.

Definition record_idx (info : Info.t) : option Z := shape_idx (Info.shape info).

Definition idxs_of (placeholders : list Shape) : list Z := omap shape_idx placeholders.

(** What the parser promises of [placeholders] collections: their
    members are placeholders. *)
Definition placeholders_only (members : list Shape) : Prop :=
  Forall (fun shape => is_placeholder shape = true) members.

Definition well_formed_slide (slide : Slide) : Prop :=
  placeholders_only (layout_placeholders (slide_layout slide))
  /\ placeholders_only (master_placeholders (slide_master (slide_layout slide))).

Definition well_formed (presentation : Presentation) : Prop :=
  Forall well_formed_slide (slides presentation).

(** A backfilled record: the placeholder at its own offset. *)
Definition backfill_record (shape : Shape) : Info.t :=
  Info.mk shape (emu_or_0 (top shape)) (emu_or_0 (left shape)).

(** [slideRecords]: the flattened shapes of the slide itself. *)
Definition slide_records (slide : Slide) : list Info.t :=
  get_shapes_with_abs_position (slide_shapes slide) 0 0.

(** The indices the slide itself supplies. *)
Definition slide_idxs (slide : Slide) : gset Z :=
  list_to_set (omap record_idx (slide_records slide)).

(** [layoutAdditions]: the records the loop over the layout appends,
    from a covered set [added]. *)
Fixpoint layout_additions (added : gset Z) (placeholders : list Shape)
  : list Info.t :=
  match placeholders with
  | [] => []
  | shape :: rest =>
      match shape_idx shape with
      | Some i =>
          if decide (i ∉ added)
          then backfill_record shape :: layout_additions (added ∪ {[i]}) rest
          else layout_additions added rest
      | None => layout_additions added rest
      end
  end.

(** [masterAdditions]: the records the loop over the master appends. *)
Fixpoint master_additions (added : gset Z) (placeholders : list Shape)
  : list Info.t :=
  match placeholders with
  | [] => []
  | shape :: rest =>
      match shape_idx shape with
      | Some i =>
          if decide (i ∉ added)
          then backfill_record shape :: master_additions added rest
          else master_additions added rest
      | None => master_additions added rest
      end
  end.

Definition layout_records (slide : Slide) : list Info.t :=
  layout_additions (slide_idxs slide) (layout_placeholders (slide_layout slide)).

Definition master_records (slide : Slide) : list Info.t :=
  master_additions
    (slide_idxs slide
       ∪ list_to_set (idxs_of (layout_placeholders (slide_layout slide))))
    (master_placeholders (slide_master (slide_layout slide))).

(** [allRecords = slideRecords ++ layoutAdditions ++ masterAdditions] *)
Definition candidates (slide : Slide) : list Info.t :=
  slide_records slide ++ layout_records slide ++ master_records slide.

#[local] Instance placeholders_only_dec members : Decision (placeholders_only members).
Proof. unfold placeholders_only. apply _. Defined.

#[local] Instance well_formed_slide_dec slide : Decision (well_formed_slide slide).
Proof. unfold well_formed_slide. apply _. Defined.

(** A placeholder of type SlideNumber. *)
Definition slide_number_placeholder (shape : Shape) : bool :=
  match placeholder_format shape with
  | Some pf => bool_decide (type pf = PP_PLACEHOLDER.SLIDE_NUMBER)
  | None => false
  end.

(** The text of a record on slide [i], before the test for emptiness. *)
Definition contributed_text (i : Z) (shape : Shape) : string :=
  if slide_number_placeholder shape then Py.str i
  else match text shape with
       | Some content_ => Py.strip content_
       | None => ""
       end.

(** The emitted text lines of slide [i]: the records that contribute a
    non-empty text, in the order given, each with its text. *)
Definition emitted (i : Z) (infos : list Info.t) : list (Info.t * string) :=
  List.filter (fun line => nonempty line.2)
    (map (fun info => (info, contributed_text i (Info.shape info))) infos).

(** The text body made of emitted lines: each text and one newline. *)
Definition body_of (lines : list (Info.t * string)) : string :=
  concat_all (map (fun line => line.2 +:+ Py.nl) lines).

(** The emitted lines of a slide. *)
Definition rendered_lines (i : Z) (slide : Slide) : list (Info.t * string) :=
  emitted i (sorted_shape_infos_of (candidates slide)).

(** The block of a slide: header, then body. *)
Definition block (i : Z) (slide : Slide) : string :=
  header i +:+ body_of (rendered_lines i slide).

(** The record has the key [k]. *)
Definition same_key (k : Z * Z) (info : Info.t) : bool := has_key key k info.

(** The record belongs to the placeholder slot [k]. *)
Definition has_idx (k : Z) (info : Info.t) : bool :=
  bool_decide (record_idx info = Some k).

Definition shape_has_idx (k : Z) (shape : Shape) : bool :=
  bool_decide (shape_idx shape = Some k).

(** The number of records of slot [k]. *)
Definition count_idx (k : Z) (infos : list Info.t) : nat :=
  length (List.filter (has_idx k) infos).

(** ** Strings *)

(** Every character of [s] satisfies [p]. *)
Fixpoint all_chars (p : ascii -> bool) (s : string) : bool :=
  match s with
  | EmptyString => true
  | String c rest => p c && all_chars p rest
  end.

Definition first_char (s : string) : option ascii :=
  match s with
  | EmptyString => None
  | String c _ => Some c
  end.

Fixpoint last_char (s : string) : option ascii :=
  match s with
  | EmptyString => None
  | String c EmptyString => Some c
  | String _ rest => last_char rest
  end.

Definition is_digit (c : ascii) : bool :=
  let n := nat_of_ascii c in ((48 <=? n) && (n <=? 57))%nat.

Definition is_digit_or_minus (c : ascii) : bool :=
  is_digit c || Ascii.eqb c "-".

(** ** The output text *)

(** The blocks of a presentation, slide by slide, numbered from 1. *)
Definition blocks (presentation : Presentation) : list string :=
  map (fun entry => block entry.1 entry.2)
    (Py.enumerate (slides presentation) 1).


(** The strings one after another, in order, with one newline between
    any two neighbours and none before the first or after the last. *)
Fixpoint separated_by_newline (parts : list string) : string :=
  match parts with
  | [] => ""
  | part :: rest =>
      match rest with
      | [] => part
      | _ :: _ => part +:+ Py.nl +:+ separated_by_newline rest
      end
  end.

(** The record's shape has a text attribute. *)
Definition holds_text (info : Info.t) : bool :=
  bool_decide (text (Info.shape info) <> None).

(** [b] is the block of slide number [n]: the header line, then the
    non-empty texts of the text-bearing candidate records taken in
    ascending order of (top, left), records of equal position in the
    order of the candidates, each text followed by one newline. *)
Definition is_block_of (n : Z) (slide : Slide) (b : string) : Prop :=
  exists records,
    StronglySorted key_le records
    /\ Permutation records (List.filter holds_text (candidates slide))
    /\ (forall k, List.filter (same_key k) records
                  = List.filter (same_key k)
                      (List.filter holds_text (candidates slide)))
    /\ b = "=== SLIDE " +:+ Py.str n +:+ " ===" +:+ Py.nl
           +:+ concat_all (map (fun line => line.2 +:+ Py.nl)
                             (emitted n records)).

(** ** File names *)

(** [c] is the lower-case ASCII letter [d] or its capital. *)
Definition same_letter (c d : ascii) : bool :=
  Ascii.eqb c d
  || ((97 <=? nat_of_ascii d) && (nat_of_ascii d <=? 122)
      && (nat_of_ascii c + 32 =? nat_of_ascii d))%nat.

(** [s] spells the lower-case word [word], whatever the case of its
    letters. *)
Fixpoint spells (word s : string) : bool :=
  match word, s with
  | EmptyString, EmptyString => true
  | String d word', String c s' => same_letter c d && spells word' s'
  | _, _ => false
  end.

(** The file name ends with a dot followed by an extension that
    contains no dot and spells "pptx" or "ppt". *)
Definition has_allowed_extension (name : string) : Prop :=
  exists stem ext,
    name = stem +:+ String "." ext
    /\ Py.contains "." ext = false
    /\ (spells "pptx" ext = true \/ spells "ppt" ext = true).

Definition is_ptx (d : ascii) : bool :=
  Ascii.eqb d "p" || Ascii.eqb d "t" || Ascii.eqb d "x".

(** ** Worked inputs *)

Definition placeholder_shape (t l : option Z) (i : Z) (ty : PP_PLACEHOLDER.t)
    (content_ : string) : Shape :=
  Build_Shape t l (Some MSO_SHAPE_TYPE.PLACEHOLDER)
    (Some {| idx := i; type := ty |}) (Some content_) [].

Definition text_box (t l : Z) (content_ : string) : Shape :=
  Build_Shape (Some t) (Some l) (Some MSO_SHAPE_TYPE.TEXT_BOX) None
    (Some content_) [].

Definition group_shape (t l : Z) (members : list Shape) : Shape :=
  Build_Shape (Some t) (Some l) (Some MSO_SHAPE_TYPE.GROUP) None None members.

Definition picture (t l : Z) : Shape :=
  Build_Shape (Some t) (Some l) (Some MSO_SHAPE_TYPE.PICTURE) None None [].

Definition master_footer : Shape :=
  placeholder_shape (Some 85) (Some 0) 10 PP_PLACEHOLDER.FOOTER "Master footer".

Definition master_number : Shape :=
  placeholder_shape (Some 90) (Some 90) 12 PP_PLACEHOLDER.SLIDE_NUMBER "<#>".

Definition layout_title : Shape :=
  placeholder_shape (Some 0) (Some 0) 0 PP_PLACEHOLDER.TITLE "Click to edit".

Definition layout_footer : Shape :=
  placeholder_shape (Some 80) (Some 0) 10 PP_PLACEHOLDER.FOOTER "Layout footer".

Definition slide_title : Shape :=
  placeholder_shape None None 0 PP_PLACEHOLDER.TITLE "  Intro ".

Definition welcome : Shape := text_box 50 0 "Welcome".

Definition blank : Shape := text_box 60 0 "   ".

Definition example_layout : SlideLayout :=
  {| layout_placeholders := [layout_title; layout_footer];
     slide_master := {| master_placeholders := [master_footer; master_number] |} |}.

(** Its own shapes: a text box, a text box inside two groups, the title
    placeholder (which has no offsets of its own), a picture and a text
    box that holds spaces only. *)
Definition example_slide : Slide :=
  {| slide_shapes :=
       [welcome;
        group_shape 100 100 [group_shape 10 10 [text_box 5 5 "Nested"]];
        slide_title; picture 20 20; blank];
     slide_layout := example_layout |}.

Definition example_presentation : Presentation :=
  {| slides := [example_slide;
                {| slide_shapes := []; slide_layout := example_layout |}] |}.

(** A request that uploads a text file, and an environment for it. *)
Definition example_request : Request :=
  {| files := {[ "file" := {| filename := "notes.txt"; content := "hello" |} ]} |}.

Definition example_save (file : FileStorage) (filepath : string)
    (files_ : gmap string string) : result (gmap string string) :=
  Ok (<[filepath := content file]> files_).

Definition example_parse (bytes : string) : result Presentation :=
  Raise "File is not a zip file".

Definition empty_world : World := {| fs := ∅; calls := [] |}.

(** ** Further vocabulary *)

(** The record moved by [(dt, dl)]. *)
Definition shift (dt dl : Z) (info : Info.t) : Info.t :=
  Info.mk (Info.shape info) (dt + Info.top info) (dl + Info.left info).

(** The slide with other shapes of its own, on the same layout. *)
Definition with_shapes (slide : Slide) (shapes_ : list Shape) : Slide :=
  {| slide_shapes := shapes_; slide_layout := slide_layout slide |}.

(** A slide whose master repeats the index 7 and whose layout repeats
    the index 3. *)
Definition repeating_layout : SlideLayout :=
  {| layout_placeholders :=
       [placeholder_shape (Some 10) (Some 0) 3 PP_PLACEHOLDER.BODY "first";
        placeholder_shape (Some 20) (Some 0) 3 PP_PLACEHOLDER.BODY "second"];
     slide_master :=
       {| master_placeholders :=
            [placeholder_shape (Some 30) (Some 0) 7 PP_PLACEHOLDER.DATE "one";
             placeholder_shape (Some 40) (Some 0) 7 PP_PLACEHOLDER.DATE "two"] |} |}.

Definition repeating_slide : Slide :=
  {| slide_shapes := [welcome]; slide_layout := repeating_layout |}.

(** A slide whose only shape is a text box of three lines: the second
    is empty and the third begins with a space. *)
Definition three_line_slide : Slide :=
  {| slide_shapes := [text_box 0 0 ("a" +:+ Py.nl +:+ Py.nl +:+ " b")];
     slide_layout :=
       {| layout_placeholders := [];
          slide_master := {| master_placeholders := [] |} |} |}.

(** An upload with an allowed name, and an environment in which the
    parser reads every file as the worked presentation, [soffice] writes
    the PDF and [send_from_directory] answers with the file's content. *)
Definition pptx_upload : FileStorage :=
  {| filename := "Deck.PPTX"; content := "hello" |}.

Definition pptx_request : Request := {| files := {[ "file" := pptx_upload ]} |}.

Definition example_parse_ok (bytes : string) : result Presentation :=
  Ok example_presentation.

Definition example_soffice (outdir filepath : string)
    (files_ : gmap string string) : Completion :=
  Completed (<[outdir +:+ "/Deck.pdf" := "%PDF-1.7"]> files_).

Definition slow_soffice (outdir filepath : string)
    (files_ : gmap string string) : Completion :=
  TimeoutExpired (<[outdir +:+ "/Deck.pdf" := "%PDF-"]> files_).

Definition example_send (directory name : string)
    (files_ : gmap string string) : result string :=
  match files_ !! (directory +:+ "/" +:+ name) with
  | Some bytes => Ok bytes
  | None => Raise "404 Not Found"
  end.

Definition empty_pdf_world : PdfWorld := {| pdf_fs := ∅; pdf_calls := [] |}.

(* ================================================================= *)
(** * Properties *)

(** ** Tools *)

Lemma for_each_nil {St A} (body : St -> A -> result St) st :
  for_each body [] st = Ok st.
Proof. reflexivity. Qed.

Lemma for_each_cons {St A} (body : St -> A -> result St) x xs st :
  for_each body (x :: xs) st = (st' ← body st x; for_each body xs st').
Proof. reflexivity. Qed.

Lemma bind_Ok {A B} (a : A) (f : A -> result B) : (Ok a ≫= f) = f a.
Proof. reflexivity. Qed.

(** ** Flattening (section 4.1) *)

Lemma flatten_step_app pt pl acc shape :
  flatten_step pt pl acc shape = acc ++ flatten_step pt pl [] shape.
Proof. destruct shape; simpl. by destruct (is_group _). Qed.

Lemma fold_flatten_step pt pl members acc :
  fold_left (flatten_step pt pl) members acc
  = acc ++ flat_map (flatten_step pt pl []) members.
Proof.
  revert acc. induction members as [|m ms IH]; intros acc; simpl.
  - by rewrite app_nil_r.
  - rewrite IH, flatten_step_app. by rewrite <- app_assoc.
Qed.

Lemma get_shapes_flat_map members pt pl :
  get_shapes_with_abs_position members pt pl
  = flat_map (flatten_step pt pl []) members.
Proof. unfold get_shapes_with_abs_position. by rewrite fold_flatten_step. Qed.

Lemma flatten_step_unfold pt pl shape :
  flatten_step pt pl [] shape
  = if is_group shape then
      get_shapes_with_abs_position (shapes shape)
        (pt + emu_or_0 (top shape)) (pl + emu_or_0 (left shape))
    else [Info.mk shape (pt + emu_or_0 (top shape)) (pl + emu_or_0 (left shape))].
Proof. by destruct shape. Qed.

Lemma sum_top_snoc chain g : sum_top (chain ++ [g]) = sum_top chain + emu_or_0 (top g).
Proof. induction chain as [|h t IH]; simpl; lia. Qed.

Lemma sum_left_snoc chain g : sum_left (chain ++ [g]) = sum_left chain + emu_or_0 (left g).
Proof. induction chain as [|h t IH]; simpl; lia. Qed.

Lemma flat_map_ext_Forall {A B} (f g : A -> list B) l :
  Forall (fun x => f x = g x) l -> flat_map f l = flat_map g l.
Proof. induction 1; simpl; congruence. Qed.

Lemma map_flat_map {A B C} (f : B -> C) (g : A -> list B) l :
  map f (flat_map g l) = flat_map (fun x => map f (g x)) l.
Proof. induction l as [|x l IH]; simpl; [done|]. by rewrite map_app, IH. Qed.

Lemma flatten_step_leaves shape : forall ancestors,
  flatten_step (sum_top ancestors) (sum_left ancestors) [] shape
  = map absolute (leaves_of ancestors shape).
Proof.
  induction shape as [t l st pf tx members IH] using Shape_ind.
  intros ancestors. rewrite flatten_step_unfold.
  set (s := Build_Shape t l st pf tx members).
  change (leaves_of ancestors s)
    with (if is_group s then flat_map (leaves_of (ancestors ++ [s])) (shapes s)
          else [(ancestors, s)]).
  destruct (is_group s); [|done].
  rewrite get_shapes_flat_map, <- sum_top_snoc, <- sum_left_snoc.
  rewrite map_flat_map. apply flat_map_ext_Forall. simpl.
  eapply Forall_impl; [exact IH|]. intros m Hm. apply Hm.
Qed.

Lemma get_shapes_leaves members :
  get_shapes_with_abs_position members 0 0 = map absolute (leaves members).
Proof.
  rewrite get_shapes_flat_map. unfold leaves.
  rewrite map_flat_map. apply flat_map_ext_Forall, Forall_forall. intros m _.
  apply (flatten_step_leaves m []).
Qed.

Lemma leaves_of_unfold ancestors shape :
  leaves_of ancestors shape
  = if is_group shape then
      flat_map (leaves_of (ancestors ++ [shape])) (shapes shape)
    else [(ancestors, shape)].
Proof. by destruct shape. Qed.

Lemma leaves_members ancestors members entry :
  Forall (fun m => forall anc e, In e (leaves_of anc m) <-> leaf_entry anc m e)
    members ->
  In entry (flat_map (leaves_of ancestors) members)
  <-> exists chain, entry.1 = ancestors ++ chain /\ is_group entry.2 = false /\
                    reaches members chain entry.2.
Proof.
  intros Hall. rewrite in_flat_map. split.
  - intros (m & Hm & Hin).
    rewrite Forall_forall in Hall.
    apply (Hall m (proj2 (list_elem_of_In _ _) Hm)) in Hin.
    destruct Hin as (chain & Hc & Hng & [[-> Hs] | (inner & -> & Hg & Hr)]).
    + exists []. repeat split; auto. apply reaches_member. by rewrite Hs.
    + exists (m :: inner). repeat split; auto. by apply reaches_inside.
  - intros (chain & Hc & Hng & Hr).
    rewrite Forall_forall in Hall.
    inversion Hr as [ms s Hin | ms g inner s Hin Hg Hr']; subst.
    + exists (entry.2). split; [done|].
      apply (Hall _ (proj2 (list_elem_of_In _ _) Hin)).
      exists []. repeat split; auto.
    + exists g. split; [done|].
      apply (Hall _ (proj2 (list_elem_of_In _ _) Hin)).
      exists (g :: inner). repeat split; auto. right. by exists inner.
Qed.

Lemma leaves_of_entry shape : forall ancestors entry,
  In entry (leaves_of ancestors shape) <-> leaf_entry ancestors shape entry.
Proof.
  induction shape as [t l st pf tx members IH] using Shape_ind.
  intros ancestors entry. rewrite leaves_of_unfold.
  set (s := Build_Shape t l st pf tx members) in *.
  destruct (is_group s) eqn:Hg.
  - change (shapes s) with members.
    rewrite (leaves_members _ _ _ IH). split.
    + intros (chain & Hc & Hng & Hr). exists (s :: chain).
      rewrite <- app_assoc in Hc. repeat split; auto. right. by exists chain.
    + intros (chain & Hc & Hng & [[-> Hs] | (inner & -> & _ & Hr)]).
      * rewrite Hs in Hng. congruence.
      * exists inner. rewrite <- app_assoc. auto.
  - split.
    + intros [<- | []]. exists []. simpl. rewrite app_nil_r. auto.
    + intros (chain & Hc & Hng & [[-> Hs] | (inner & -> & Hg' & _)]).
      * left. destruct entry; simpl in *. rewrite app_nil_r in Hc. congruence.
      * congruence.
Qed.

Lemma leaves_reaches members chain s :
  In (chain, s) (leaves members) <-> reaches members chain s /\ is_group s = false.
Proof.
  unfold leaves. rewrite leaves_members.
  - simpl. split.
    + intros (c & -> & Hng & Hr). auto.
    + intros [Hr Hng]. by exists chain.
  - apply Forall_forall. intros m _. apply leaves_of_entry.
Qed.

Lemma length_flat_map {A B} (f : A -> list B) l :
  length (flat_map f l) = fold_right (fun x n => (length (f x) + n)%nat) 0%nat l.
Proof. induction l as [|x l IH]; simpl; [done|]. by rewrite length_app, IH. Qed.

Lemma fold_right_ext_Forall {A} (f g : A -> nat) l :
  Forall (fun x => f x = g x) l ->
  fold_right (fun x n => (f x + n)%nat) 0%nat l
  = fold_right (fun x n => (g x + n)%nat) 0%nat l.
Proof. induction 1; simpl; congruence. Qed.

Lemma flatten_step_length shape : forall pt pl,
  length (flatten_step pt pl [] shape) = count_leaves shape.
Proof.
  induction shape as [t l st pf tx members IH] using Shape_ind.
  intros pt pl. rewrite flatten_step_unfold.
  set (s := Build_Shape t l st pf tx members).
  change (count_leaves s)
    with (if is_group s then
            fold_right (fun m n => (count_leaves m + n)%nat) 0%nat (shapes s)
          else 1%nat).
  destruct (is_group s); [|done].
  rewrite get_shapes_flat_map, length_flat_map.
  apply fold_right_ext_Forall. simpl.
  eapply Forall_impl; [exact IH|]. intros m Hm. apply Hm.
Qed.

(** C1. Flattening a slide's shape tree gives, in pre-order, exactly one
    record for each non-group shape reachable through groups and none
    for a group; the record's absolute top (left) is the shape's own top
    (left) plus those of all enclosing groups, an absent offset counting
    as 0. A shape at (5,5) in a group at (10,10) in a group at (100,100)
    comes out at (115,115). *)
Theorem flattening_absolute_positions :
  (forall members : list Shape,
      let records := get_shapes_with_abs_position members 0 0 in
      records = map absolute (leaves members)
      /\ (forall chain s,
             In (chain, s) (leaves members)
             <-> reaches members chain s /\ is_group s = false)
      /\ length records
         = fold_right (fun m n => (count_leaves m + n)%nat) 0%nat members
      /\ Forall (fun info => is_group (Info.shape info) = false) records)
  /\ (forall pf tx,
         let leaf := Build_Shape (Some 5) (Some 5)
                       (Some MSO_SHAPE_TYPE.AUTO_SHAPE) pf tx [] in
         let inner := Build_Shape (Some 10) (Some 10)
                        (Some MSO_SHAPE_TYPE.GROUP) None None [leaf] in
         let outer := Build_Shape (Some 100) (Some 100)
                        (Some MSO_SHAPE_TYPE.GROUP) None None [inner] in
         get_shapes_with_abs_position [outer] 0 0 = [Info.mk leaf 115 115]).
Proof.
  split; [|done].
  intros members records. split; [|split; [|split]].
  - apply get_shapes_leaves.
  - intros chain s. apply leaves_reaches.
  - unfold records. rewrite get_shapes_flat_map, length_flat_map.
    apply fold_right_ext_Forall, Forall_forall. intros m _.
    apply flatten_step_length.
  - unfold records. rewrite get_shapes_leaves.
    apply Forall_forall. intros info Hin.
    apply list_elem_of_In, in_map_iff in Hin.
    destruct Hin as ([chain s] & <- & Hin).
    apply leaves_reaches in Hin. simpl. tauto.
Qed.

(** ** [sorted] is the stable ascending sort *)

Section SortedFacts.
Context {A K : Type} `{EqDecision K}.
Variable leb : A -> A -> bool.
Variable key_of : A -> K.
Hypothesis leb_total : forall a b, leb a b = true \/ leb b a = true.
Hypothesis leb_trans :
  forall a b c, leb a b = true -> leb b c = true -> leb a c = true.
Hypothesis leb_antisym :
  forall a b, leb a b = true -> leb b a = true -> key_of a = key_of b.
Hypothesis leb_same_key :
  forall a b, key_of a = key_of b -> leb a b = true.

Notation le := (holds leb).
Notation has_key := (has_key key_of).

Lemma insert_sorted_Permutation x l :
  Permutation (Py.insert_sorted leb x l) (x :: l).
Proof.
  induction l as [|y l IH]; simpl; [done|].
  destruct (leb x y); [done|].
  rewrite IH. apply perm_swap.
Qed.

Lemma sorted_Permutation l : Permutation (Py.sorted leb l) l.
Proof.
  induction l as [|x l IH]; simpl; [done|].
  rewrite insert_sorted_Permutation. by constructor.
Qed.

Lemma insert_sorted_StronglySorted x l :
  StronglySorted le l -> StronglySorted le (Py.insert_sorted leb x l).
Proof.
  induction 1 as [|y l Hl IH Hy]; simpl.
  - repeat constructor.
  - destruct (leb x y) eqn:Hxy.
    + constructor; [by constructor|].
      constructor; [done|].
      eapply Forall_impl; [exact Hy|]. intros z Hz. by eapply leb_trans.
    + constructor; [done|].
      eapply Permutation_Forall;
        [symmetry; apply insert_sorted_Permutation|].
      constructor; [|done].
      destruct (leb_total x y); [congruence|done].
Qed.

Lemma sorted_StronglySorted l : StronglySorted le (Py.sorted leb l).
Proof.
  induction l as [|x l IH]; simpl; [constructor|].
  by apply insert_sorted_StronglySorted.
Qed.

Lemma filter_insert_sorted k x l :
  List.filter (has_key k) (Py.insert_sorted leb x l)
  = if has_key k x then x :: List.filter (has_key k) l
    else List.filter (has_key k) l.
Proof.
  induction l as [|y l IH]; simpl; [done|].
  destruct (leb x y) eqn:Hxy; simpl; [done|].
  rewrite IH. unfold has_key.
  destruct (bool_decide_reflect (key_of x = k)) as [Hx|Hx]; [|done].
  destruct (bool_decide_reflect (key_of y = k)) as [Hy|Hy]; [|done].
  rewrite leb_same_key in Hxy by congruence. discriminate.
Qed.

(** Stability: the records of one key keep their order. *)
Lemma sorted_stable k l :
  List.filter (has_key k) (Py.sorted leb l) = List.filter (has_key k) l.
Proof.
  induction l as [|x l IH]; simpl; [done|].
  rewrite filter_insert_sorted, IH. by destruct (has_key k x).
Qed.

(** Order and stability fix the result: any stable ascending sort of
    a list is [sorted] of it. *)
Lemma stable_sort_unique l1 : forall l2,
  StronglySorted le l1 -> StronglySorted le l2 ->
  (forall k, List.filter (has_key k) l1 = List.filter (has_key k) l2) ->
  l1 = l2.
Proof.
  assert (Hhead : forall a l l', StronglySorted le (a :: l) ->
             (forall k, List.filter (has_key k) (a :: l)
                        = List.filter (has_key k) l') ->
             In a l').
  { intros a l l' _ Hf. specialize (Hf (key_of a)). simpl in Hf.
    unfold has_key at 1 in Hf. rewrite bool_decide_eq_true_2 in Hf by done.
    assert (Hin : In a (List.filter (has_key (key_of a)) l'))
      by (rewrite <- Hf; by left).
    by apply filter_In in Hin as [? _]. }
  induction l1 as [|a l1 IH]; intros l2 H1 H2 Hf.
  - destruct l2 as [|b l2]; [done|].
    specialize (Hf (key_of b)). simpl in Hf. unfold has_key at 1 in Hf.
    rewrite bool_decide_eq_true_2 in Hf by done. discriminate.
  - destruct l2 as [|b l2].
    { specialize (Hf (key_of a)). simpl in Hf. unfold has_key at 1 in Hf.
      rewrite bool_decide_eq_true_2 in Hf by done. discriminate. }
    assert (Hab : key_of a = key_of b).
    { pose proof (Hhead a l1 (b :: l2) H1 Hf) as Ha.
      pose proof (Hhead b l2 (a :: l1) H2 (fun k => eq_sym (Hf k))) as Hb.
      apply StronglySorted_inv in H1 as [_ H1].
      apply StronglySorted_inv in H2 as [_ H2].
      rewrite Forall_forall in H1, H2.
      destruct Ha as [->|Ha]; [done|]. destruct Hb as [->|Hb]; [done|].
      symmetry. apply leb_antisym.
      - apply H2. by apply list_elem_of_In.
      - apply H1. by apply list_elem_of_In. }
    pose proof (Hf (key_of a)) as Hk. simpl in Hk. unfold has_key in Hk.
    rewrite (bool_decide_eq_true_2 (key_of a = key_of a)) in Hk by done.
    rewrite (bool_decide_eq_true_2 (key_of b = key_of a)) in Hk by done.
    injection Hk as <- Hk. f_equal.
    apply StronglySorted_inv in H1 as [H1 _].
    apply StronglySorted_inv in H2 as [H2 _].
    apply IH; [done|done|].
    intros k. specialize (Hf k). simpl in Hf.
    destruct (has_key k a); congruence.
Qed.
End SortedFacts.

Lemma key_leb_le a b : key_leb a b = true <-> key_le a b.
Proof.
  unfold key_leb, Py.tuple_leb, key_le, key. simpl.
  rewrite orb_true_iff, andb_true_iff, Z.ltb_lt, Z.eqb_eq, Z.leb_le. tauto.
Qed.

Lemma key_leb_total a b : key_leb a b = true \/ key_leb b a = true.
Proof. rewrite !key_leb_le. unfold key_le. lia. Qed.

Lemma key_leb_trans a b c :
  key_leb a b = true -> key_leb b c = true -> key_leb a c = true.
Proof. rewrite !key_leb_le. unfold key_le. lia. Qed.

Lemma key_leb_antisym a b :
  key_leb a b = true -> key_leb b a = true -> key a = key b.
Proof.
  rewrite !key_leb_le. unfold key_le, key. intros H1 H2.
  f_equal; lia.
Qed.

Lemma key_leb_same_key a b : key a = key b -> key_leb a b = true.
Proof.
  rewrite key_leb_le. unfold key_le, key. intros [= H1 H2]. lia.
Qed.

Lemma StronglySorted_key_le l :
  StronglySorted (fun a b => key_leb a b = true) l <-> StronglySorted key_le l.
Proof.
  split; induction 1; constructor; auto;
    (eapply Forall_impl; [eassumption|]); intros ?; apply key_leb_le.
Qed.

(** Whatever stable ascending sort the interpreter runs, its result on
    the records is the list [sorted] gives. *)
Lemma sorted_is_the_stable_sort (infos sorted_ : list Info.t) :
  StronglySorted key_le sorted_ ->
  (forall k, List.filter (same_key k) sorted_ = List.filter (same_key k) infos) ->
  sorted_ = Py.sorted key_leb infos.
Proof.
  intros Hsorted Hstable.
  apply (stable_sort_unique key_leb key key_leb_antisym).
  - by apply StronglySorted_key_le.
  - apply sorted_StronglySorted; [apply key_leb_total | apply key_leb_trans].
  - intros k. rewrite (sorted_stable key_leb key key_leb_same_key).
    apply Hstable.
Qed.

(** ** Strings *)

Lemma append_nil_l s : "" +:+ s = s.
Proof. reflexivity. Qed.

Lemma append_cons c s t : String c s +:+ t = String c (s +:+ t).
Proof. reflexivity. Qed.

Lemma append_nil_r s : s +:+ "" = s.
Proof. induction s as [|c s IH]; [done|]. by rewrite append_cons, IH. Qed.

Lemma append_assoc s1 s2 s3 : (s1 +:+ s2) +:+ s3 = s1 +:+ s2 +:+ s3.
Proof.
  induction s1 as [|c s1 IH]; [done|]. by rewrite !append_cons, IH.
Qed.


(** ** Placeholder backfill (section 4.2) *)

Lemma get_placeholder_format_shape_idx shape :
  is_placeholder shape = true ->
  exists pf, get_placeholder_format shape = Ok pf /\ shape_idx shape = Some (idx pf).
Proof.
  unfold is_placeholder, get_placeholder_format, shape_idx.
  destruct (placeholder_format shape) as [pf|]; [|done]. by exists pf.
Qed.

Lemma layout_step_Ok infos added shape pf :
  get_placeholder_format shape = Ok pf ->
  layout_step (infos, added) shape
  = Ok (if decide (idx pf ∉ added)
        then (infos ++ [backfill_record shape], added ∪ {[idx pf]})
        else (infos, added)).
Proof.
  intros Hpf. unfold layout_step. rewrite Hpf, bind_Ok.
  by destruct (decide (idx pf ∉ added)).
Qed.

Lemma master_step_Ok added infos shape pf :
  get_placeholder_format shape = Ok pf ->
  master_step added infos shape
  = Ok (if decide (idx pf ∉ added) then infos ++ [backfill_record shape]
        else infos).
Proof.
  intros Hpf. unfold master_step. rewrite Hpf, bind_Ok.
  by destruct (decide (idx pf ∉ added)).
Qed.

Lemma get_placeholder_format_None shape :
  is_placeholder shape = false ->
  get_placeholder_format shape = Raise "shape is not a placeholder".
Proof.
  unfold is_placeholder, get_placeholder_format.
  by destruct (placeholder_format shape).
Qed.

Lemma layout_step_Raise st shape :
  is_placeholder shape = false ->
  layout_step st shape = Raise "shape is not a placeholder".
Proof.
  intros H. destruct st. unfold layout_step.
  by rewrite get_placeholder_format_None.
Qed.

Lemma master_step_Raise added infos shape :
  is_placeholder shape = false ->
  master_step added infos shape = Raise "shape is not a placeholder".
Proof.
  intros H. unfold master_step. by rewrite get_placeholder_format_None.
Qed.

Lemma collect_idx_Ok acc info :
  collect_idx acc info
  = Ok (match record_idx info with Some i => acc ∪ {[i]} | None => acc end).
Proof.
  unfold collect_idx, record_idx, is_placeholder, get_placeholder_format,
    shape_idx.
  by destruct (placeholder_format (Info.shape info)).
Qed.

Lemma collect_idx_loop infos acc :
  for_each collect_idx infos acc = Ok (acc ∪ list_to_set (omap record_idx infos)).
Proof.
  revert acc. induction infos as [|info infos IH]; intros acc.
  - rewrite for_each_nil. f_equal. set_solver.
  - rewrite for_each_cons, collect_idx_Ok, bind_Ok, IH. simpl.
    destruct (record_idx info); f_equal; set_solver.
Qed.

Lemma layout_loop placeholders : forall all_shape_infos added,
  placeholders_only placeholders ->
  for_each layout_step placeholders (all_shape_infos, added)
  = Ok (all_shape_infos ++ layout_additions added placeholders,
        added ∪ list_to_set (idxs_of placeholders)).
Proof.
  induction placeholders as [|shape rest IH]; intros infos added Hall.
  - rewrite for_each_nil. simpl. rewrite app_nil_r. do 2 f_equal. set_solver.
  - apply Forall_cons in Hall as [Hshape Hrest].
    destruct (get_placeholder_format_shape_idx _ Hshape) as (pf & Hpf & Hidx).
    rewrite for_each_cons, (layout_step_Ok _ _ _ _ Hpf), bind_Ok.
    unfold idxs_of. simpl. rewrite Hidx.
    destruct (decide (idx pf ∉ added)) as [Hnew|Hold]; rewrite IH by done.
    + rewrite <- app_assoc. simpl. do 2 f_equal. unfold idxs_of. set_solver.
    + do 2 f_equal. apply dec_stable in Hold. unfold idxs_of. set_solver.
Qed.

Lemma master_loop added placeholders : forall all_shape_infos,
  placeholders_only placeholders ->
  for_each (master_step added) placeholders all_shape_infos
  = Ok (all_shape_infos ++ master_additions added placeholders).
Proof.
  induction placeholders as [|shape rest IH]; intros infos Hall.
  - rewrite for_each_nil. simpl. by rewrite app_nil_r.
  - apply Forall_cons in Hall as [Hshape Hrest].
    destruct (get_placeholder_format_shape_idx _ Hshape) as (pf & Hpf & Hidx).
    rewrite for_each_cons, (master_step_Ok _ _ _ _ Hpf), bind_Ok.
    simpl. rewrite Hidx.
    destruct (decide (idx pf ∉ added)); rewrite IH by done; [|done].
    by rewrite <- app_assoc.
Qed.

Lemma all_shape_infos_of_ok slide :
  well_formed_slide slide -> all_shape_infos_of slide = Ok (candidates slide).
Proof.
  intros [Hlayout Hmaster]. unfold all_shape_infos_of.
  rewrite collect_idx_loop, bind_Ok.
  rewrite layout_loop by done. rewrite bind_Ok. simpl fst; simpl snd.
  rewrite master_loop by done.
  unfold candidates, layout_records, master_records, slide_idxs, slide_records.
  rewrite <- app_assoc. do 4 f_equal; set_solver.
Qed.

(** A [placeholders] collection with a member that is no placeholder
    makes the loop over it raise. *)
Lemma layout_loop_raises placeholders : forall st,
  ~ placeholders_only placeholders ->
  for_each layout_step placeholders st = Raise "shape is not a placeholder".
Proof.
  induction placeholders as [|shape rest IH]; intros [infos added] Hbad.
  - destruct Hbad. constructor.
  - rewrite for_each_cons.
    destruct (is_placeholder shape) eqn:Hshape;
      [|by rewrite layout_step_Raise].
    destruct (get_placeholder_format_shape_idx _ Hshape) as (pf & Hpf & _).
    rewrite (layout_step_Ok _ _ _ _ Hpf), bind_Ok.
    assert (Hrest : ~ placeholders_only rest).
    { intros Hrest. apply Hbad. by constructor. }
    by apply IH.
Qed.

Lemma master_loop_raises added placeholders : forall infos,
  ~ placeholders_only placeholders ->
  for_each (master_step added) placeholders infos
  = Raise "shape is not a placeholder".
Proof.
  induction placeholders as [|shape rest IH]; intros infos Hbad.
  - destruct Hbad. constructor.
  - rewrite for_each_cons.
    destruct (is_placeholder shape) eqn:Hshape;
      [|by rewrite master_step_Raise].
    destruct (get_placeholder_format_shape_idx _ Hshape) as (pf & Hpf & _).
    rewrite (master_step_Ok _ _ _ _ Hpf), bind_Ok.
    assert (Hrest : ~ placeholders_only rest).
    { intros Hrest. apply Hbad. by constructor. }
    by apply IH.
Qed.

Lemma all_shape_infos_of_raises slide :
  ~ well_formed_slide slide ->
  all_shape_infos_of slide = Raise "shape is not a placeholder".
Proof.
  intros Hbad. unfold all_shape_infos_of.
  rewrite collect_idx_loop, bind_Ok.
  destruct (decide (placeholders_only (layout_placeholders (slide_layout slide))))
    as [Hlayout|Hlayout].
  - rewrite layout_loop by done. rewrite bind_Ok.
    apply master_loop_raises. intros Hmaster. by apply Hbad.
  - by rewrite layout_loop_raises.
Qed.

(** ** Sorting and text assembly (section 4.3) *)

Lemma is_slide_number_Ok shape :
  is_slide_number shape = Ok (slide_number_placeholder shape).
Proof.
  unfold is_slide_number, slide_number_placeholder, is_placeholder,
    get_placeholder_format.
  by destruct (placeholder_format shape).
Qed.

Lemma text_step_Ok i slide_text info :
  text_step i slide_text info
  = Ok (if nonempty (contributed_text i (Info.shape info))
        then slide_text +:+ contributed_text i (Info.shape info) +:+ Py.nl
        else slide_text).
Proof.
  unfold text_step. rewrite is_slide_number_Ok, bind_Ok.
  fold (contributed_text i (Info.shape info)).
  by destruct (nonempty _).
Qed.

Lemma emitted_cons i info infos :
  emitted i (info :: infos)
  = if nonempty (contributed_text i (Info.shape info))
    then (info, contributed_text i (Info.shape info)) :: emitted i infos
    else emitted i infos.
Proof. reflexivity. Qed.

Lemma text_loop i infos : forall slide_text,
  for_each (text_step i) infos slide_text
  = Ok (slide_text +:+ body_of (emitted i infos)).
Proof.
  induction infos as [|info infos IH]; intros acc.
  - rewrite for_each_nil. unfold body_of. simpl. by rewrite append_nil_r.
  - rewrite for_each_cons, text_step_Ok, bind_Ok, IH, emitted_cons.
    destruct (nonempty _); [|done].
    unfold body_of. simpl. by rewrite !append_assoc.
Qed.

Lemma slide_text_of_ok i slide :
  well_formed_slide slide -> slide_text_of i slide = Ok (block i slide).
Proof.
  intros Hwf. unfold slide_text_of.
  rewrite all_shape_infos_of_ok, bind_Ok by done. apply text_loop.
Qed.

Lemma slide_text_of_raises i slide :
  ~ well_formed_slide slide ->
  slide_text_of i slide = Raise "shape is not a placeholder".
Proof.
  intros Hbad. unfold slide_text_of. by rewrite all_shape_infos_of_raises.
Qed.

Lemma emitted_fst i infos :
  map fst (emitted i infos)
  = List.filter (fun info => nonempty (contributed_text i (Info.shape info))) infos.
Proof.
  induction infos as [|info infos IH]; [done|].
  rewrite emitted_cons. simpl. destruct (nonempty _); simpl; congruence.
Qed.

Lemma emitted_In i infos info t :
  In (info, t) (emitted i infos)
  <-> In info infos /\ t = contributed_text i (Info.shape info) /\ nonempty t = true.
Proof.
  unfold emitted. rewrite filter_In, in_map_iff. simpl. split.
  - intros [(x & [= -> ->] & Hin) Hne]. auto.
  - intros (Hin & -> & Hne). split; [|done]. by exists info.
Qed.

Lemma emitted_StronglySorted i infos :
  StronglySorted key_le infos ->
  StronglySorted (fun a b => key_le a.1 b.1) (emitted i infos).
Proof.
  induction 1 as [|info infos Hs IH Hall]; [constructor|].
  rewrite emitted_cons. destruct (nonempty _); [|done].
  constructor; [done|].
  apply Forall_forall. intros [info' t] Hin.
  apply list_elem_of_In, emitted_In in Hin as [Hin _].
  rewrite Forall_forall in Hall. simpl. apply Hall. by apply list_elem_of_In.
Qed.

Lemma StronglySorted_pairs {A} (R : A -> A -> Prop) l :
  StronglySorted R l ->
  forall before a between b after,
    l = before ++ a :: between ++ b :: after -> R a b.
Proof.
  induction 1 as [|x l Hs IH Hall]; intros before a between b after Heq.
  - by destruct before.
  - destruct before as [|y before]; simpl in Heq.
    + injection Heq as -> ->. rewrite Forall_forall in Hall.
      apply Hall. apply list_elem_of_In, in_or_app. right. by left.
    + injection Heq as -> ->. by eapply IH.
Qed.

(** C2. On every slide the text-bearing records are put in ascending
    order of (top, left), top first and left on equal tops, by a stable
    sort of slideRecords ++ layoutAdditions ++ masterAdditions restricted
    to the shapes with text; so for any two emitted text lines the
    earlier one's record is not below the later one's in that order. *)
Theorem records_sorted_by_position (i : Z) (slide : Slide) :
  well_formed_slide slide ->
  let unsorted := text_shape_infos_of (candidates slide) in
  let sorted_ := sorted_shape_infos_of (candidates slide) in
  all_shape_infos_of slide
    = Ok (slide_records slide ++ layout_records slide ++ master_records slide)
  /\ StronglySorted key_le sorted_
  /\ Permutation sorted_ unsorted
  /\ (forall k, List.filter (same_key k) sorted_ = List.filter (same_key k) unsorted)
  /\ slide_text_of i slide = Ok (header i +:+ body_of (emitted i sorted_))
  /\ (forall before a between b after,
         emitted i sorted_ = before ++ a :: between ++ b :: after ->
         Info.top a.1 < Info.top b.1
         \/ (Info.top a.1 = Info.top b.1 /\ Info.left a.1 <= Info.left b.1)).
Proof.
  intros Hwf unsorted sorted_.
  assert (Hsorted : StronglySorted key_le sorted_).
  { apply StronglySorted_key_le.
    apply sorted_StronglySorted;
      [apply key_leb_total | apply key_leb_trans]. }
  split; [by apply all_shape_infos_of_ok|].
  split; [done|].
  split; [apply sorted_Permutation|].
  split.
  { intros k. apply (sorted_stable key_leb key), key_leb_same_key. }
  split; [by apply slide_text_of_ok|].
  apply (StronglySorted_pairs (fun a b => key_le a.1 b.1)).
  by apply emitted_StronglySorted.
Qed.

(** ** Coverage of the placeholder slots *)

Lemma has_idx_backfill k shape :
  has_idx k (backfill_record shape) = shape_has_idx k shape.
Proof. reflexivity. Qed.

Lemma shape_has_idx_true k shape :
  shape_has_idx k shape = true <-> shape_idx shape = Some k.
Proof. unfold shape_has_idx. apply bool_decide_eq_true. Qed.

Lemma shape_has_idx_Some k i shape :
  shape_idx shape = Some i -> shape_has_idx k shape = bool_decide (i = k).
Proof.
  intros H. unfold shape_has_idx. rewrite H.
  apply bool_decide_ext. split; congruence.
Qed.

(** The layout loop adds, for a slot not yet covered, the first
    placeholder of the layout with that index, and nothing else. *)
Lemma layout_additions_slot k placeholders : forall added,
  List.filter (has_idx k) (layout_additions added placeholders)
  = if decide (k ∈ added) then []
    else match List.find (shape_has_idx k) placeholders with
         | Some shape => [backfill_record shape]
         | None => []
         end.
Proof.
  induction placeholders as [|shape rest IH]; intros added; simpl.
  - by destruct (decide (k ∈ added)).
  - destruct (shape_idx shape) as [i|] eqn:Hi.
    + rewrite (shape_has_idx_Some k i) by done.
      destruct (decide (i ∉ added)) as [Hnew|Hold].
      * simpl. rewrite has_idx_backfill, (shape_has_idx_Some k i), IH by done.
        destruct (bool_decide_reflect (i = k)) as [->|Hne].
        -- rewrite decide_True by set_solver. by rewrite decide_False by done.
        -- destruct (decide (k ∈ added)) as [Hk|Hk].
           ++ by rewrite decide_True by set_solver.
           ++ by rewrite decide_False by set_solver.
      * rewrite IH. apply dec_stable in Hold.
        destruct (decide (k ∈ added)) as [Hk|Hk]; [done|].
        rewrite bool_decide_eq_false_2; [done|]. congruence.
    + rewrite IH.
      assert (shape_has_idx k shape = false) as ->; [|done].
      unfold shape_has_idx. rewrite Hi. by apply bool_decide_eq_false_2.
Qed.

(** The master loop adds the master's placeholders of a slot that is not
    covered, all of them. *)
Lemma master_additions_slot k added placeholders :
  List.filter (has_idx k) (master_additions added placeholders)
  = if decide (k ∈ added) then []
    else map backfill_record (List.filter (shape_has_idx k) placeholders).
Proof.
  induction placeholders as [|shape rest IH]; simpl.
  - by destruct (decide (k ∈ added)).
  - destruct (shape_idx shape) as [i|] eqn:Hi.
    + rewrite (shape_has_idx_Some k i) by done.
      destruct (decide (i ∉ added)) as [Hnew|Hold].
      * simpl. rewrite has_idx_backfill, (shape_has_idx_Some k i), IH by done.
        destruct (bool_decide_reflect (i = k)) as [->|Hne]; [|done].
        by rewrite !decide_False by done.
      * rewrite IH. apply dec_stable in Hold.
        destruct (decide (k ∈ added)) as [Hk|Hk]; [done|].
        rewrite bool_decide_eq_false_2; [done|]. congruence.
    + rewrite IH.
      assert (shape_has_idx k shape = false) as ->; [|done].
      unfold shape_has_idx. rewrite Hi. by apply bool_decide_eq_false_2.
Qed.

Lemma find_shape_has_idx k placeholders :
  match List.find (shape_has_idx k) placeholders with
  | Some shape => In shape placeholders /\ shape_idx shape = Some k
  | None => ~ In k (idxs_of placeholders)
  end.
Proof.
  induction placeholders as [|shape rest IH]; simpl; [tauto|].
  destruct (shape_has_idx k shape) eqn:Hk.
  - apply shape_has_idx_true in Hk. auto.
  - destruct (List.find (shape_has_idx k) rest) as [found|].
    + tauto.
    + unfold idxs_of. simpl. fold (idxs_of rest).
      destruct (shape_idx shape) as [i|] eqn:Hi; [|done].
      rewrite (shape_has_idx_Some k i) in Hk by done.
      apply bool_decide_eq_false in Hk. simpl. tauto.
Qed.

Lemma In_idxs_of k placeholders :
  In k (idxs_of placeholders)
  <-> exists shape, In shape placeholders /\ shape_idx shape = Some k.
Proof.
  unfold idxs_of. rewrite <- list_elem_of_In, list_elem_of_omap.
  split; intros (shape & H1 & H2); exists shape; split; auto;
    by apply list_elem_of_In.
Qed.

(** Records of one slot in a list whose indices are all different. *)
Lemma filter_idx_NoDup {A} (f : A -> option Z) k (l : list A) :
  NoDup (omap f l) ->
  (length (List.filter (fun x => bool_decide (f x = Some k)) l) <= 1)%nat
  /\ (In k (omap f l) ->
      length (List.filter (fun x => bool_decide (f x = Some k)) l) = 1%nat)
  /\ (~ In k (omap f l) ->
      List.filter (fun x => bool_decide (f x = Some k)) l = []).
Proof.
  induction l as [|x l IH]; simpl.
  - intros _. repeat split; auto. tauto.
  - destruct (f x) as [i|] eqn:Hx.
    + intros Hnd. apply NoDup_cons in Hnd as [Hi Hnd].
      destruct (IH Hnd) as (IH1 & IH2 & IH3).
      rewrite list_elem_of_In in Hi.
      destruct (bool_decide_reflect (Some i = Some k)) as [[= ->]|Hne]; simpl.
      * rewrite (IH3 Hi). simpl. split; [lia|]. split; [done|]. tauto.
      * split; [done|]. split.
        -- intros [->|Hk]; [done|auto].
        -- intros Hk. apply IH3. tauto.
    + intros Hnd. destruct (IH Hnd) as (IH1 & IH2 & IH3).
      by rewrite bool_decide_eq_false_2.
Qed.

Lemma count_idx_app k xs ys :
  count_idx k (xs ++ ys) = (count_idx k xs + count_idx k ys)%nat.
Proof. unfold count_idx. by rewrite List.filter_app, length_app. Qed.

Lemma slide_idxs_In k slide :
  k ∈ slide_idxs slide <-> In k (omap record_idx (slide_records slide)).
Proof. unfold slide_idxs. by rewrite elem_of_list_to_set, list_elem_of_In. Qed.

Lemma count_idx_layout k slide :
  count_idx k (layout_records slide)
  = if decide (k ∈ slide_idxs slide) then 0%nat
    else if decide (k ∈ idxs_of (layout_placeholders (slide_layout slide)))
         then 1%nat else 0%nat.
Proof.
  unfold count_idx, layout_records. rewrite layout_additions_slot.
  destruct (decide (k ∈ slide_idxs slide)); [done|].
  pose proof (find_shape_has_idx k (layout_placeholders (slide_layout slide))) as Hf.
  destruct (List.find _ _) as [shape|].
  - rewrite decide_True; [done|]. apply list_elem_of_In, In_idxs_of. by exists shape.
  - rewrite decide_False; [done|]. by rewrite list_elem_of_In.
Qed.

Lemma count_idx_master k slide :
  NoDup (idxs_of (master_placeholders (slide_master (slide_layout slide)))) ->
  count_idx k (master_records slide)
  = if decide (k ∈ slide_idxs slide) then 0%nat
    else if decide (k ∈ idxs_of (layout_placeholders (slide_layout slide)))
         then 0%nat
         else if decide (k ∈ idxs_of (master_placeholders
                                        (slide_master (slide_layout slide))))
              then 1%nat else 0%nat.
Proof.
  intros Hnd. unfold count_idx, master_records. rewrite master_additions_slot.
  destruct (decide (k ∈ slide_idxs slide)) as [Hs|Hs].
  { by rewrite decide_True by set_solver. }
  destruct (decide (k ∈ idxs_of (layout_placeholders (slide_layout slide))))
    as [Hl|Hl].
  { rewrite decide_True; [done|].
    by apply elem_of_union_r, elem_of_list_to_set. }
  rewrite decide_False.
  2:{ rewrite elem_of_union, elem_of_list_to_set. tauto. }
  rewrite length_map.
  destruct (filter_idx_NoDup shape_idx k _ Hnd) as (_ & H1 & H0).
  destruct (decide (k ∈ idxs_of (master_placeholders
                                   (slide_master (slide_layout slide)))))
    as [Hm|Hm].
  - apply H1. by apply list_elem_of_In.
  - unfold shape_has_idx. rewrite H0; [done|]. by rewrite <- list_elem_of_In.
Qed.

Lemma count_idx_slide k slide :
  NoDup (omap record_idx (slide_records slide)) ->
  (count_idx k (slide_records slide) <= 1)%nat
  /\ (k ∉ slide_idxs slide -> count_idx k (slide_records slide) = 0%nat).
Proof.
  intros Hnd. destruct (filter_idx_NoDup record_idx k _ Hnd) as (H1 & _ & H0).
  split; [exact H1|].
  intros Hk. unfold count_idx, has_idx. rewrite H0; [done|].
  by rewrite <- slide_idxs_In.
Qed.

Lemma count_idx_candidates k slide :
  NoDup (omap record_idx (slide_records slide)) ->
  NoDup (idxs_of (master_placeholders (slide_master (slide_layout slide)))) ->
  (count_idx k (candidates slide) <= 1)%nat
  /\ (k ∉ slide_idxs slide ->
      k ∈ idxs_of (layout_placeholders (slide_layout slide))
      \/ k ∈ idxs_of (master_placeholders (slide_master (slide_layout slide))) ->
      count_idx k (candidates slide) = 1%nat).
Proof.
  intros Hslide Hmaster. unfold candidates.
  rewrite !count_idx_app, count_idx_layout, count_idx_master by done.
  destruct (count_idx_slide k slide Hslide) as [Hle Hzero].
  destruct (decide (k ∈ slide_idxs slide)) as [Hs|Hs].
  { split; [lia|done]. }
  rewrite (Hzero Hs).
  destruct (decide (k ∈ idxs_of (layout_placeholders (slide_layout slide)))).
  { split; [lia|done]. }
  destruct (decide (k ∈ idxs_of (master_placeholders
                                   (slide_master (slide_layout slide))))).
  { split; [lia|done]. }
  split; [lia|tauto].
Qed.

Lemma length_filter_filter {A} (p q : A -> bool) l :
  (length (List.filter p (List.filter q l)) <= length (List.filter p l))%nat.
Proof.
  induction l as [|x l IH]; simpl; [done|].
  destruct (q x), (p x) eqn:Hp; simpl; rewrite ?Hp; simpl; lia.
Qed.

Lemma length_filter_Permutation {A} (p : A -> bool) l l' :
  Permutation l l' -> length (List.filter p l) = length (List.filter p l').
Proof.
  induction 1 as [|x l l' _ IH|x y l|l l' l'' _ IH1 _ IH2]; simpl.
  - done.
  - destruct (p x); simpl; congruence.
  - destruct (p x), (p y); done.
  - congruence.
Qed.

Lemma filter_on_fst {A B} (p : A -> bool) (l : list (A * B)) :
  length (List.filter (fun line => p line.1) l)
  = length (List.filter p (map fst l)).
Proof.
  induction l as [|x l IH]; simpl; [done|]. destruct (p x.1); simpl; congruence.
Qed.

(** The emitted lines of a slot are no more than its candidate records. *)
Lemma lines_of_slot_le i k slide :
  (length (List.filter (fun line => has_idx k line.1) (rendered_lines i slide))
   <= count_idx k (candidates slide))%nat.
Proof.
  unfold rendered_lines. rewrite filter_on_fst, emitted_fst.
  etransitivity; [apply length_filter_filter|].
  unfold sorted_shape_infos_of.
  rewrite (length_filter_Permutation _ _ _ (sorted_Permutation key_leb _)).
  apply length_filter_filter.
Qed.

(** C3. On a slide whose own placeholders, whose layout's and whose
    master's have pairwise different indices, every index of the layout
    or of the master that the slide's own flattened placeholders do not
    supply has exactly one record among the candidates, no index has
    more than one, and no index gives more than one emitted text line. *)
Theorem backfill_covers_each_slot_once (slide : Slide) :
  well_formed_slide slide ->
  NoDup (omap record_idx (slide_records slide)) ->
  NoDup (idxs_of (layout_placeholders (slide_layout slide))) ->
  NoDup (idxs_of (master_placeholders (slide_master (slide_layout slide)))) ->
  all_shape_infos_of slide = Ok (candidates slide)
  /\ (forall k,
         In k (idxs_of (layout_placeholders (slide_layout slide)))
         \/ In k (idxs_of (master_placeholders (slide_master (slide_layout slide)))) ->
         ~ In k (omap record_idx (slide_records slide)) ->
         count_idx k (candidates slide) = 1%nat)
  /\ (forall k, (count_idx k (candidates slide) <= 1)%nat)
  /\ (forall i k,
         (length (List.filter (fun line => has_idx k line.1)
                    (rendered_lines i slide)) <= 1)%nat).
Proof.
  intros Hwf Hslide _ Hmaster.
  split; [by apply all_shape_infos_of_ok|].
  split; [|split].
  - intros k Hk Hnot.
    apply (count_idx_candidates k slide Hslide Hmaster).
    + by rewrite slide_idxs_In.
    + by rewrite !list_elem_of_In.
  - intros k. apply (count_idx_candidates k slide Hslide Hmaster).
  - intros i k. etransitivity; [apply lines_of_slot_le|].
    apply (count_idx_candidates k slide Hslide Hmaster).
Qed.

(** C4. When the slide does not supply index [k] while a placeholder of
    its layout and a placeholder of the master both have it, the loop
    over the layout adds one record of that index, the layout's
    placeholder (the first one, were there several), and the loop over
    the master adds none: the layout wins over the master. *)
Theorem layout_wins_over_master (slide : Slide) (k : Z) (L M : Shape) :
  well_formed_slide slide ->
  k ∉ slide_idxs slide ->
  In L (layout_placeholders (slide_layout slide)) -> shape_idx L = Some k ->
  In M (master_placeholders (slide_master (slide_layout slide))) ->
  shape_idx M = Some k ->
  all_shape_infos_of slide
    = Ok (slide_records slide ++ layout_records slide ++ master_records slide)
  /\ (exists L',
         In L' (layout_placeholders (slide_layout slide))
         /\ shape_idx L' = Some k
         /\ List.filter (has_idx k) (layout_records slide) = [backfill_record L']
         /\ (NoDup (idxs_of (layout_placeholders (slide_layout slide))) -> L' = L))
  /\ List.filter (has_idx k) (master_records slide) = [].
Proof.
  intros Hwf Hk HL HLk HM HMk.
  split; [by apply all_shape_infos_of_ok|]. split.
  - unfold layout_records. rewrite layout_additions_slot, decide_False by done.
    pose proof (find_shape_has_idx k (layout_placeholders (slide_layout slide)))
      as Hfind.
    destruct (List.find _ _) as [L'|].
    + destruct Hfind as [HL' HL'k]. exists L'. repeat split; auto.
      intros Hnd. clear Hwf HM.
      induction (layout_placeholders (slide_layout slide)) as [|s rest IH];
        [done|].
      unfold idxs_of in Hnd. simpl in Hnd.
      assert (Hin : forall x, In x rest -> shape_idx x = Some k ->
                              In k (omap shape_idx rest)).
      { intros x Hx Hxk. apply In_idxs_of. by exists x. }
      destruct HL as [->|HL], HL' as [->|HL']; [done| | |].
      * rewrite HLk in Hnd. apply NoDup_cons in Hnd as [Hnd _].
        rewrite list_elem_of_In in Hnd. destruct Hnd. by apply (Hin L').
      * rewrite HL'k in Hnd. apply NoDup_cons in Hnd as [Hnd _].
        rewrite list_elem_of_In in Hnd. destruct Hnd. by apply (Hin L).
      * apply IH; auto. destruct (shape_idx s); [|done].
        by apply NoDup_cons in Hnd as [_ Hnd].
    + destruct Hfind. apply In_idxs_of. by exists L.
  - unfold master_records. rewrite master_additions_slot.
    rewrite decide_True; [done|].
    apply elem_of_union_r, elem_of_list_to_set, list_elem_of_In, In_idxs_of.
    by exists L.
Qed.

(** ** [str] and [strip] *)

Lemma all_chars_impl (p q : ascii -> bool) s :
  (forall c, p c = true -> q c = true) ->
  all_chars p s = true -> all_chars q s = true.
Proof.
  intros Hpq. induction s as [|c s IH]; simpl; [done|].
  rewrite !andb_true_iff. intros [Hc Hs]. auto.
Qed.

Lemma all_chars_last p s c :
  all_chars p s = true -> last_char s = Some c -> p c = true.
Proof.
  induction s as [|d s IH]; simpl; [done|].
  rewrite andb_true_iff. intros [Hd Hs].
  destruct s as [|e s]; [by intros [= <-]|auto].
Qed.

Lemma last_char_append s c t : last_char (s +:+ String c t) = last_char (String c t).
Proof.
  induction s as [|d s IH]; [done|].
  rewrite append_cons. simpl last_char at 1.
  destruct (s +:+ String c t) eqn:Heq; [by destruct s|done].
Qed.

Lemma string_of_uint_digits d :
  all_chars is_digit (NilEmpty.string_of_uint d) = true.
Proof. induction d; simpl; auto. Qed.

Lemma str_chars i : all_chars is_digit_or_minus (Py.str i) = true.
Proof.
  assert (Hu : forall d, all_chars is_digit_or_minus (NilZero.string_of_uint d) = true).
  { intros d. apply (all_chars_impl is_digit).
    - intros c Hc. unfold is_digit_or_minus. by rewrite Hc.
    - destruct d; try apply string_of_uint_digits. done. }
  unfold Py.str. destruct (Z.to_int i); simpl; auto.
Qed.

Lemma str_nonempty i : nonempty (Py.str i) = true.
Proof.
  unfold Py.str. destruct i as [|p|p]; simpl; [done| |done].
  pose proof (DecimalPos.Unsigned.to_uint_nonnil p) as Hp.
  by destruct (Pos.to_uint p).
Qed.

(** [str i] is the decimal numeral of [i]: reading it gives [i] back. *)
Lemma str_decimal i :
  exists d, NilZero.int_of_string (Py.str i) = Some d /\ Z.of_int d = i.
Proof.
  exists (Z.to_int i). split; [|apply DecimalZ.of_to].
  unfold Py.str. apply NilZero.isi.
  - destruct i as [|p|p]; simpl; try done.
    intros [= Hp]. by apply (DecimalPos.Unsigned.to_uint_nonnil p).
  - destruct i as [|p|p]; simpl; try done.
    intros [= Hp]. by apply (DecimalPos.Unsigned.to_uint_nonnil p).
Qed.

Lemma digit_or_minus_not_space c : is_digit_or_minus c = true -> Py.isspace c = false.
Proof.
  destruct c as [[] [] [] [] [] [] [] []]; vm_compute; congruence.
Qed.

Lemma lstrip_split s :
  exists pre, s = pre +:+ Py.lstrip s /\ all_chars Py.isspace pre = true.
Proof.
  induction s as [|c s (pre & Hs & Hpre)]; simpl.
  - by exists "".
  - destruct (Py.isspace c) eqn:Hc.
    + exists (String c pre). rewrite append_cons, <- Hs. simpl. by rewrite Hc.
    + by exists "".
Qed.

Lemma lstrip_first s c :
  first_char (Py.lstrip s) = Some c -> Py.isspace c = false.
Proof.
  induction s as [|d s IH]; simpl; [done|].
  destruct (Py.isspace d) eqn:Hd; [done|]. by intros [= <-].
Qed.

Lemma rstrip_split s :
  exists post, s = Py.rstrip s +:+ post /\ all_chars Py.isspace post = true.
Proof.
  induction s as [|c s (post & Hs & Hpost)]; simpl.
  - by exists "".
  - destruct (Py.rstrip s) as [|d kept] eqn:Hr.
    + destruct (Py.isspace c) eqn:Hc.
      * exists (String c post). rewrite append_nil_l in *. subst post.
        split; [done|]. simpl. by rewrite Hc.
      * exists post. rewrite append_cons, append_nil_l.
        rewrite append_nil_l in Hs. by subst post.
    + exists post. rewrite append_cons. by rewrite <- Hs.
Qed.

Lemma rstrip_last s c :
  last_char (Py.rstrip s) = Some c -> Py.isspace c = false.
Proof.
  induction s as [|d s IH]; simpl; [done|].
  destruct (Py.rstrip s) as [|e kept] eqn:Hr.
  - destruct (Py.isspace d) eqn:Hd; [done|]. by intros [= <-].
  - simpl. exact IH.
Qed.

Lemma rstrip_first s c :
  first_char (Py.rstrip s) = Some c -> first_char s = Some c.
Proof.
  destruct s as [|d s]; simpl; [done|].
  destruct (Py.rstrip s); [|done]. by destruct (Py.isspace d).
Qed.

(** [strip] removes the whitespace at both ends and nothing else. *)
Lemma strip_spec s :
  exists pre post,
    s = pre +:+ Py.strip s +:+ post
    /\ all_chars Py.isspace pre = true
    /\ all_chars Py.isspace post = true
    /\ (forall c, first_char (Py.strip s) = Some c -> Py.isspace c = false)
    /\ (forall c, last_char (Py.strip s) = Some c -> Py.isspace c = false).
Proof.
  destruct (lstrip_split s) as (pre & Hs & Hpre).
  destruct (rstrip_split (Py.lstrip s)) as (post & Hl & Hpost).
  exists pre, post. unfold Py.strip. repeat split; auto.
  - by rewrite <- Hl.
  - intros c Hc. apply rstrip_first in Hc. by eapply lstrip_first.
  - apply rstrip_last.
Qed.

Lemma strip_spaces s : all_chars Py.isspace s = true -> Py.strip s = "".
Proof.
  unfold Py.strip. induction s as [|c s IH]; simpl; [done|].
  rewrite andb_true_iff. intros [Hc Hs]. rewrite Hc. auto.
Qed.

(** ** The text a record contributes *)

Lemma In_sorted_shape_infos info infos :
  In info (sorted_shape_infos_of infos)
  <-> In info infos /\ has_text (Info.shape info) = true.
Proof.
  unfold sorted_shape_infos_of, text_shape_infos_of.
  rewrite <- (filter_In (fun x => has_text (Info.shape x))).
  split; apply Permutation_in; [|symmetry]; apply sorted_Permutation.
Qed.

Lemma rendered_lines_In i slide info t :
  In (info, t) (rendered_lines i slide)
  <-> In info (candidates slide) /\ has_text (Info.shape info) = true
      /\ t = contributed_text i (Info.shape info) /\ nonempty t = true.
Proof.
  unfold rendered_lines. rewrite emitted_In, In_sorted_shape_infos. tauto.
Qed.

Lemma rendered_lines_nonempty i slide :
  Forall (fun line => nonempty line.2 = true) (rendered_lines i slide).
Proof.
  apply Forall_forall. intros [info t] Hin.
  apply list_elem_of_In, rendered_lines_In in Hin. tauto.
Qed.

Lemma nonempty_ne s : nonempty s = true <-> s <> "".
Proof. destruct s; simpl; split; congruence. Qed.

(** C5. On slide [n] every record the text loop visits whose shape is a
    placeholder of type SlideNumber contributes the decimal numeral of
    [n] as its text, whatever text the placeholder holds: the loop step
    appends [str(n)] and a newline, the record's line is among the
    slide's lines, and on slide 3 the text is "3". *)
Theorem slide_number_renders_index (n : Z) (slide : Slide) (info : Info.t) :
  well_formed_slide slide ->
  In info (sorted_shape_infos_of (candidates slide)) ->
  slide_number_placeholder (Info.shape info) = true ->
  (forall slide_text,
      text_step n slide_text info = Ok (slide_text +:+ Py.str n +:+ Py.nl))
  /\ contributed_text n (Info.shape info) = Py.str n
  /\ In (info, Py.str n) (rendered_lines n slide)
  /\ slide_text_of n slide = Ok (header n +:+ body_of (rendered_lines n slide))
  /\ (exists d, NilZero.int_of_string (Py.str n) = Some d /\ Z.of_int d = n)
  /\ Py.str 3 = "3".
Proof.
  intros Hwf Hin Hnum.
  assert (Hc : contributed_text n (Info.shape info) = Py.str n).
  { unfold contributed_text. by rewrite Hnum. }
  split.
  { intros slide_text. by rewrite text_step_Ok, Hc, str_nonempty. }
  split; [done|]. split.
  - apply In_sorted_shape_infos in Hin as [Hin Htext].
    apply rendered_lines_In. repeat split; auto. apply str_nonempty.
  - split; [by apply slide_text_of_ok|]. split; [apply str_decimal|done].
Qed.

(** C6. A candidate record whose shape is not a SlideNumber placeholder
    contributes its text content with the whitespace at both ends
    removed; when nothing is left (or the shape has no text) it
    contributes no line, so that the body holds no blank line for it. *)
Theorem other_shapes_render_trimmed_text (i : Z) (slide : Slide) (info : Info.t) :
  well_formed_slide slide ->
  In info (candidates slide) ->
  slide_number_placeholder (Info.shape info) = false ->
  slide_text_of i slide = Ok (header i +:+ body_of (rendered_lines i slide))
  /\ Forall (fun line => nonempty line.2 = true) (rendered_lines i slide)
  /\ match text (Info.shape info) with
     | Some content_ =>
         (Py.strip content_ <> "" ->
          In (info, Py.strip content_) (rendered_lines i slide))
         /\ (Py.strip content_ = "" ->
             forall t, ~ In (info, t) (rendered_lines i slide))
         /\ (forall t, In (info, t) (rendered_lines i slide) ->
                       t = Py.strip content_)
         /\ (exists pre post,
                content_ = pre +:+ Py.strip content_ +:+ post
                /\ all_chars Py.isspace pre = true
                /\ all_chars Py.isspace post = true
                /\ (forall c, first_char (Py.strip content_) = Some c ->
                              Py.isspace c = false)
                /\ (forall c, last_char (Py.strip content_) = Some c ->
                              Py.isspace c = false))
     | None => forall t, ~ In (info, t) (rendered_lines i slide)
     end
  /\ (forall s, all_chars Py.isspace s = true -> Py.strip s = "")
  /\ Py.strip "   " = "".
Proof.
  intros Hwf Hin Hnum.
  split; [by apply slide_text_of_ok|].
  split; [apply rendered_lines_nonempty|].
  split; [|split; [apply strip_spaces|done]].
  assert (Hc : contributed_text i (Info.shape info)
               = match text (Info.shape info) with
                 | Some content_ => Py.strip content_
                 | None => ""
                 end).
  { unfold contributed_text. by rewrite Hnum. }
  destruct (text (Info.shape info)) as [content_|] eqn:Htext.
  - split; [|split; [|split]].
    + intros Hne. apply rendered_lines_In. unfold has_text.
      rewrite Htext, Hc. repeat split; auto. by apply nonempty_ne.
    + intros Hempty t Ht. apply rendered_lines_In in Ht as (_ & _ & -> & Hne).
      rewrite Hc, Hempty in Hne. discriminate.
    + intros t Ht. apply rendered_lines_In in Ht as (_ & _ & -> & _). exact Hc.
    + apply strip_spec.
  - intros t Ht. apply rendered_lines_In in Ht as (_ & Hhas & _).
    unfold has_text in Hhas. rewrite Htext in Hhas. discriminate.
Qed.

(** ** The output text *)

Lemma enumerate_lookup {A} (xs : list A) start k :
  Py.enumerate xs start !! k = (fun x => (start + Z.of_nat k, x)) <$> xs !! k.
Proof.
  revert start k. induction xs as [|x xs IH]; intros start k; [done|].
  destruct k as [|k]; simpl.
  - do 2 f_equal. lia.
  - rewrite IH. destruct (xs !! k); simpl; [|done]. do 2 f_equal. lia.
Qed.

Lemma slide_step_Ok text_content i slide :
  well_formed_slide slide ->
  slide_step text_content (i, slide) = Ok (text_content ++ [block i slide]).
Proof.
  intros Hwf. unfold slide_step. cbn [fst snd].
  by rewrite slide_text_of_ok, bind_Ok.
Qed.

Lemma slide_step_Raise text_content i slide :
  ~ well_formed_slide slide ->
  slide_step text_content (i, slide) = Raise "shape is not a placeholder".
Proof.
  intros Hbad. unfold slide_step. cbn [fst snd].
  by rewrite slide_text_of_raises.
Qed.

Lemma slides_loop slides_ : forall start text_content,
  Forall well_formed_slide slides_ ->
  for_each slide_step (Py.enumerate slides_ start) text_content
  = Ok (text_content
        ++ map (fun entry => block entry.1 entry.2) (Py.enumerate slides_ start)).
Proof.
  induction slides_ as [|slide rest IH]; intros start acc Hwf.
  - simpl. by rewrite app_nil_r.
  - apply Forall_cons in Hwf as [Hslide Hrest].
    simpl Py.enumerate. rewrite for_each_cons, slide_step_Ok, bind_Ok by done.
    rewrite IH by done. by rewrite <- app_assoc.
Qed.

Lemma slides_loop_raises slides_ : forall start text_content,
  ~ Forall well_formed_slide slides_ ->
  for_each slide_step (Py.enumerate slides_ start) text_content
  = Raise "shape is not a placeholder".
Proof.
  induction slides_ as [|slide rest IH]; intros start acc Hbad.
  - destruct Hbad. constructor.
  - simpl Py.enumerate. rewrite for_each_cons.
    destruct (decide (well_formed_slide slide)) as [Hslide|Hslide].
    + rewrite slide_step_Ok, bind_Ok by done.
      apply IH. intros Hrest. apply Hbad. by constructor.
    + by rewrite slide_step_Raise.
Qed.

Lemma extract_text_ok presentation :
  well_formed presentation ->
  extract_text presentation = Ok (Py.join Py.nl (blocks presentation)).
Proof.
  intros Hwf. unfold extract_text. by rewrite slides_loop.
Qed.

Lemma extract_text_raises presentation :
  ~ well_formed presentation ->
  extract_text presentation = Raise "shape is not a placeholder".
Proof.
  intros Hbad. unfold extract_text. by rewrite slides_loop_raises.
Qed.


Lemma contributed_text_last i shape c :
  last_char (contributed_text i shape) = Some c -> Py.isspace c = false.
Proof.
  unfold contributed_text. destruct (slide_number_placeholder shape).
  - intros Hlast. apply digit_or_minus_not_space.
    by apply (all_chars_last _ (Py.str i)); [apply str_chars|].
  - destruct (text shape) as [content_|]; [|done].
    unfold Py.strip. apply rstrip_last.
Qed.


Lemma join_separated parts : Py.join Py.nl parts = separated_by_newline parts.
Proof.
  unfold Py.join. induction parts as [|part rest IH]; [done|].
  simpl. destruct rest as [|next rest]; [done|]. by rewrite IH.
Qed.

Lemma holds_text_has_text info : holds_text info = has_text (Info.shape info).
Proof. unfold holds_text, has_text. by destruct (text (Info.shape info)). Qed.

Lemma filter_holds_text infos :
  List.filter holds_text infos = text_shape_infos_of infos.
Proof.
  unfold text_shape_infos_of. apply List.filter_ext, holds_text_has_text.
Qed.

Lemma block_is_block_of n slide : is_block_of n slide (block n slide).
Proof.
  exists (sorted_shape_infos_of (candidates slide)).
  rewrite filter_holds_text. split; [|split; [|split]].
  - apply StronglySorted_key_le, sorted_StronglySorted;
      [apply key_leb_total | apply key_leb_trans].
  - apply sorted_Permutation.
  - intros k. apply (sorted_stable key_leb key), key_leb_same_key.
  - unfold block, header, body_of, rendered_lines. by rewrite !append_assoc.
Qed.

Lemma length_enumerate {A} (xs : list A) start :
  length (Py.enumerate xs start) = length xs.
Proof.
  revert start. induction xs as [|x xs IH]; intros start; simpl; [done|].
  by rewrite IH.
Qed.

Lemma blocks_lookup presentation (k : nat) slide :
  slides presentation !! k = Some slide ->
  blocks presentation !! k = Some (block (1 + Z.of_nat k) slide).
Proof.
  intros Hslide. unfold blocks.
  by rewrite list_lookup_fmap, enumerate_lookup, Hslide.
Qed.

Lemma length_blocks presentation :
  length (blocks presentation) = length (slides presentation).
Proof. unfold blocks. by rewrite length_map, length_enumerate. Qed.


(** C8. Extraction gives the complete text or raises one exception
    whose message carries the description of its cause, never a part of
    the text. When the parser raises, that is the cause. On a parsed
    document that keeps the parser's promise the result is the whole
    text: the block of every slide, in slide order, one newline between
    two blocks. A document that breaks the promise is the only other
    cause of an exception. *)
Theorem extraction_all_or_nothing
    (open_presentation : string -> result Presentation) (file_path : string) :
  match open_presentation file_path with
  | Raise cause =>
      extract_text_from_pptx open_presentation file_path
      = Raise ("Error processing PowerPoint file: " +:+ cause)
  | Ok presentation =>
      (well_formed presentation ->
       exists bs : list string,
         extract_text_from_pptx open_presentation file_path
         = Ok (separated_by_newline bs)
         /\ length bs = length (slides presentation)
         /\ (forall (k : nat) slide,
                slides presentation !! k = Some slide ->
                exists b, bs !! k = Some b
                          /\ is_block_of (1 + Z.of_nat k) slide b))
      /\ (~ well_formed presentation ->
          extract_text_from_pptx open_presentation file_path
          = Raise ("Error processing PowerPoint file: "
                   +:+ "shape is not a placeholder"))
  end.
Proof.
  unfold extract_text_from_pptx.
  destruct (open_presentation file_path) as [presentation|cause]; [|done].
  rewrite bind_Ok. split; intros Hwf.
  - exists (blocks presentation).
    rewrite extract_text_ok, join_separated by done.
    split; [done|]. split; [apply length_blocks|].
    intros k slide Hslide. exists (block (1 + Z.of_nat k) slide).
    split; [by apply blocks_lookup|apply block_is_block_of].
  - by rewrite extract_text_raises.
Qed.

(** ** Upload validation *)

Lemma lower_char_p c : Py.lower_char c = "p"%char <-> same_letter c "p" = true.
Proof.
  destruct c as [[] [] [] [] [] [] [] []]; vm_compute; split; congruence.
Qed.

Lemma lower_char_t c : Py.lower_char c = "t"%char <-> same_letter c "t" = true.
Proof.
  destruct c as [[] [] [] [] [] [] [] []]; vm_compute; split; congruence.
Qed.

Lemma lower_char_x c : Py.lower_char c = "x"%char <-> same_letter c "x" = true.
Proof.
  destruct c as [[] [] [] [] [] [] [] []]; vm_compute; split; congruence.
Qed.

Lemma lower_char_ptx c d :
  is_ptx d = true -> Py.lower_char c = d <-> same_letter c d = true.
Proof.
  unfold is_ptx. rewrite !orb_true_iff, !Ascii.eqb_eq.
  intros [[-> | ->] | ->];
    [apply lower_char_p | apply lower_char_t | apply lower_char_x].
Qed.

Lemma lower_spells word : all_chars is_ptx word = true ->
  forall s, Py.lower s = word <-> spells word s = true.
Proof.
  induction word as [|d word IH]; intros Hword [|c s]; simpl; try done.
  simpl in Hword. apply andb_true_iff in Hword as [Hd Hword].
  rewrite andb_true_iff, <- (lower_char_ptx c d Hd), <- (IH Hword s).
  split; [by intros [= -> ->]|by intros [-> ->]].
Qed.

Lemma lower_pptx ext : Py.lower ext = "pptx" <-> spells "pptx" ext = true.
Proof. by apply lower_spells. Qed.

Lemma lower_ppt ext : Py.lower ext = "ppt" <-> spells "ppt" ext = true.
Proof. by apply lower_spells. Qed.

Lemma allowed_extension_lower ext :
  Py.lower ext ∈ ALLOWED_EXTENSIONS
  <-> spells "pptx" ext = true \/ spells "ppt" ext = true.
Proof.
  unfold ALLOWED_EXTENSIONS.
  rewrite elem_of_union, !elem_of_singleton, lower_pptx, lower_ppt. tauto.
Qed.

(** [rsplit] at the last separator. *)
Lemma rsplit1_spec sep s :
  match Py.rsplit1 sep s with
  | [whole] => whole = s /\ Py.contains sep s = false
  | [stem; ext] => s = stem +:+ String sep ext /\ Py.contains sep ext = false
                   /\ Py.contains sep s = true
  | _ => False
  end.
Proof.
  induction s as [|c s IH]; simpl; [done|].
  destruct (Py.rsplit1 sep s) as [|a [|b [|? ?]]]; try done.
  - destruct IH as [-> Hs]. destruct (Ascii.eqb c sep) eqn:Hc.
    + apply Ascii.eqb_eq in Hc as ->. by repeat split.
    + by rewrite Hs.
  - destruct IH as (-> & Hext & Hs). rewrite Hs, append_cons.
    by destruct (Ascii.eqb c sep).
Qed.

Lemma contains_append sep s t :
  Py.contains sep (s +:+ t) = Py.contains sep s || Py.contains sep t.
Proof.
  induction s as [|c s IH]; [done|]. rewrite append_cons. simpl.
  by destruct (Ascii.eqb c sep).
Qed.

Lemma split_last_unique sep stem : forall stem' ext ext',
  stem +:+ String sep ext = stem' +:+ String sep ext' ->
  Py.contains sep ext = false -> Py.contains sep ext' = false ->
  stem = stem' /\ ext = ext'.
Proof.
  assert (Hself : Py.contains sep (String sep "") = true)
    by (simpl; by rewrite Ascii.eqb_refl).
  assert (Hhas : forall s t, Py.contains sep (s +:+ String sep t) = true).
  { intros s t. rewrite contains_append. simpl. rewrite Ascii.eqb_refl.
    apply orb_true_r. }
  induction stem as [|c stem IH]; intros stem' ext ext' Heq He He'.
  - destruct stem' as [|c' stem'].
    + rewrite !append_nil_l in Heq. by injection Heq as ->.
    + rewrite append_nil_l, append_cons in Heq. injection Heq as -> ->.
      by rewrite Hhas in He.
  - destruct stem' as [|c' stem'].
    + rewrite append_nil_l, append_cons in Heq. injection Heq as -> <-.
      by rewrite Hhas in He'.
    + rewrite !append_cons in Heq. injection Heq as -> Heq.
      destruct (IH _ _ _ Heq He He') as [-> ->]. done.
Qed.

(** [allowed_file] never raises, and accepts exactly the names with an
    allowed extension. *)
Lemma allowed_file_spec name :
  exists allowed,
    allowed_file name = Ok allowed
    /\ (allowed = true <-> has_allowed_extension name).
Proof.
  unfold allowed_file.
  pose proof (rsplit1_spec "." name) as Hsplit.
  destruct (Py.rsplit1 "." name) as [|stem [|ext [|? ?]]]; try done.
  - destruct Hsplit as [_ Hno]. rewrite Hno. exists false. split; [done|].
    split; [done|].
    intros (stem' & ext' & -> & _ & _).
    rewrite contains_append in Hno. simpl in Hno.
    by rewrite orb_true_r in Hno.
  - destruct Hsplit as (Hname & Hext & ->). simpl.
    exists (bool_decide (Py.lower ext ∈ ALLOWED_EXTENSIONS)). split; [done|].
    rewrite bool_decide_eq_true, allowed_extension_lower. split.
    + intros Hok. by exists stem, ext.
    + intros (stem' & ext' & Heq & Hext' & Hok). rewrite Hname in Heq.
      destruct (split_last_unique _ _ _ _ _ Heq Hext Hext') as [_ ->]. done.
Qed.

(** C10. A request to [/api/convert-to-text] without a 'file' part, or
    whose file name is empty or has no dot-separated extension spelling
    "pptx" or "ppt" in whatever case, is answered with a JSON error
    object and status 400; nothing is saved, the extractor is not
    called, and the world is left as it was. *)
Theorem invalid_upload_is_rejected
    (secure_filename : string -> string)
    (save : FileStorage -> string -> gmap string string
            -> result (gmap string string))
    (parse : string -> result Presentation)
    (request : Request) (w : World) :
  (files request !! "file" = None
   \/ exists file, files request !! "file" = Some file
                   /\ (filename file = "" \/ ~ has_allowed_extension (filename file))) ->
  exists message,
    convert_pptx_to_text secure_filename save parse request w
    = ({| body := JObj [("error", JStr message)]; status := 400 |}, w)
    /\ calls (convert_pptx_to_text secure_filename save parse request w).2
       = calls w.
Proof.
  intros Hbad. unfold convert_pptx_to_text.
  destruct Hbad as [Hnone | (file & Hfile & Hname)].
  - rewrite Hnone. by exists "No file provided".
  - rewrite Hfile. exists "Invalid file or file type".
    assert (Hcond : (if bool_decide (filename file = "") then Ok true
                     else allowed_file (filename file) ≫= λ allowed : bool,
                          Ok (negb allowed)) = Ok true).
    { destruct (bool_decide_reflect (filename file = "")) as [He|He]; [done|].
      destruct Hname as [Hname|Hname]; [done|].
      destruct (allowed_file_spec (filename file)) as (allowed & -> & Hallowed).
      rewrite bind_Ok. destruct allowed; [|done]. destruct Hname. tauto. }
    by rewrite Hcond.
Qed.

(** ** A worked presentation *)

Lemma example_slide_well_formed : well_formed_slide example_slide.
Proof. split; repeat constructor. Defined.

Lemma example_presentation_well_formed : well_formed example_presentation.
Proof. repeat constructor. Defined.

(** The text of the worked presentation. *)
Example example_presentation_text :
  extract_text example_presentation
  = Ok ("=== SLIDE 1 ===" +:+ Py.nl +:+ "Intro" +:+ Py.nl +:+ "Welcome" +:+ Py.nl
        +:+ "Layout footer" +:+ Py.nl +:+ "1" +:+ Py.nl +:+ "Nested" +:+ Py.nl
        +:+ Py.nl
        +:+ "=== SLIDE 2 ===" +:+ Py.nl +:+ "Click to edit" +:+ Py.nl
        +:+ "Layout footer" +:+ Py.nl +:+ "2" +:+ Py.nl).
Proof. by vm_compute. Qed.

Lemma records_sorted_by_position_witness :
  well_formed_slide example_slide
  /\ (let unsorted := text_shape_infos_of (candidates example_slide) in
      let sorted_ := sorted_shape_infos_of (candidates example_slide) in
      all_shape_infos_of example_slide
        = Ok (slide_records example_slide ++ layout_records example_slide
              ++ master_records example_slide)
      /\ StronglySorted key_le sorted_
      /\ Permutation sorted_ unsorted
      /\ (forall k, List.filter (same_key k) sorted_
                    = List.filter (same_key k) unsorted)
      /\ slide_text_of 2 example_slide
         = Ok (header 2 +:+ body_of (emitted 2 sorted_))
      /\ (forall before a between b after,
             emitted 2 sorted_ = before ++ a :: between ++ b :: after ->
             Info.top a.1 < Info.top b.1
             \/ (Info.top a.1 = Info.top b.1 /\ Info.left a.1 <= Info.left b.1))).
Proof.
  split; [exact example_slide_well_formed|].
  exact (records_sorted_by_position 2 example_slide example_slide_well_formed).
Defined.

Lemma example_slide_idxs_NoDup :
  NoDup (omap record_idx (slide_records example_slide)).
Proof. apply (bool_decide_unpack _). by vm_compute. Defined.

Lemma example_layout_idxs_NoDup :
  NoDup (idxs_of (layout_placeholders (slide_layout example_slide))).
Proof. apply (bool_decide_unpack _). by vm_compute. Defined.

Lemma example_master_idxs_NoDup :
  NoDup (idxs_of (master_placeholders (slide_master (slide_layout example_slide)))).
Proof. apply (bool_decide_unpack _). by vm_compute. Defined.

Lemma backfill_covers_each_slot_once_witness :
  well_formed_slide example_slide
  /\ NoDup (omap record_idx (slide_records example_slide))
  /\ NoDup (idxs_of (layout_placeholders (slide_layout example_slide)))
  /\ NoDup (idxs_of (master_placeholders (slide_master (slide_layout example_slide))))
  /\ all_shape_infos_of example_slide = Ok (candidates example_slide)
  /\ (forall k,
         In k (idxs_of (layout_placeholders (slide_layout example_slide)))
         \/ In k (idxs_of (master_placeholders
                             (slide_master (slide_layout example_slide)))) ->
         ~ In k (omap record_idx (slide_records example_slide)) ->
         count_idx k (candidates example_slide) = 1%nat)
  /\ (forall k, (count_idx k (candidates example_slide) <= 1)%nat)
  /\ (forall i k,
         (length (List.filter (fun line => has_idx k line.1)
                    (rendered_lines i example_slide)) <= 1)%nat).
Proof.
  split; [exact example_slide_well_formed|].
  split; [exact example_slide_idxs_NoDup|].
  split; [exact example_layout_idxs_NoDup|].
  split; [exact example_master_idxs_NoDup|].
  exact (backfill_covers_each_slot_once example_slide
           example_slide_well_formed example_slide_idxs_NoDup
           example_layout_idxs_NoDup example_master_idxs_NoDup).
Defined.

Lemma example_footer_not_supplied : 10 ∉ slide_idxs example_slide.
Proof. apply (bool_decide_unpack _). by vm_compute. Defined.

Lemma layout_wins_over_master_witness :
  well_formed_slide example_slide
  /\ 10 ∉ slide_idxs example_slide
  /\ In layout_footer (layout_placeholders (slide_layout example_slide))
  /\ shape_idx layout_footer = Some 10
  /\ In master_footer (master_placeholders (slide_master (slide_layout example_slide)))
  /\ shape_idx master_footer = Some 10
  /\ all_shape_infos_of example_slide
     = Ok (slide_records example_slide ++ layout_records example_slide
           ++ master_records example_slide)
  /\ (exists L',
         In L' (layout_placeholders (slide_layout example_slide))
         /\ shape_idx L' = Some 10
         /\ List.filter (has_idx 10) (layout_records example_slide)
            = [backfill_record L']
         /\ (NoDup (idxs_of (layout_placeholders (slide_layout example_slide))) ->
             L' = layout_footer))
  /\ List.filter (has_idx 10) (master_records example_slide) = [].
Proof.
  assert (HL : In layout_footer (layout_placeholders (slide_layout example_slide)))
    by (simpl; tauto).
  assert (HM : In master_footer
                 (master_placeholders (slide_master (slide_layout example_slide))))
    by (simpl; tauto).
  split; [exact example_slide_well_formed|].
  split; [exact example_footer_not_supplied|].
  split; [exact HL|]. split; [reflexivity|].
  split; [exact HM|]. split; [reflexivity|].
  exact (layout_wins_over_master example_slide 10 layout_footer master_footer
           example_slide_well_formed example_footer_not_supplied
           HL eq_refl HM eq_refl).
Defined.

Lemma example_number_is_visited :
  In (backfill_record master_number)
    (sorted_shape_infos_of (candidates example_slide)).
Proof. vm_compute. tauto. Defined.

Lemma slide_number_renders_index_witness :
  well_formed_slide example_slide
  /\ In (backfill_record master_number)
       (sorted_shape_infos_of (candidates example_slide))
  /\ slide_number_placeholder (Info.shape (backfill_record master_number)) = true
  /\ (forall slide_text,
         text_step 3 slide_text (backfill_record master_number)
         = Ok (slide_text +:+ Py.str 3 +:+ Py.nl))
  /\ contributed_text 3 (Info.shape (backfill_record master_number)) = Py.str 3
  /\ In (backfill_record master_number, Py.str 3) (rendered_lines 3 example_slide)
  /\ slide_text_of 3 example_slide
     = Ok (header 3 +:+ body_of (rendered_lines 3 example_slide))
  /\ (exists d, NilZero.int_of_string (Py.str 3) = Some d /\ Z.of_int d = 3)
  /\ Py.str 3 = "3".
Proof.
  split; [exact example_slide_well_formed|].
  split; [exact example_number_is_visited|].
  split; [reflexivity|].
  exact (slide_number_renders_index 3 example_slide (backfill_record master_number)
           example_slide_well_formed example_number_is_visited eq_refl).
Defined.

Lemma example_blank_is_candidate :
  In (Info.mk blank 60 0) (candidates example_slide).
Proof. vm_compute. tauto. Defined.

Lemma other_shapes_render_trimmed_text_witness :
  well_formed_slide example_slide
  /\ In (Info.mk blank 60 0) (candidates example_slide)
  /\ slide_number_placeholder (Info.shape (Info.mk blank 60 0)) = false
  /\ slide_text_of 1 example_slide
     = Ok (header 1 +:+ body_of (rendered_lines 1 example_slide))
  /\ Forall (fun line => nonempty line.2 = true) (rendered_lines 1 example_slide)
  /\ ((Py.strip "   " <> "" ->
       In (Info.mk blank 60 0, Py.strip "   ") (rendered_lines 1 example_slide))
      /\ (Py.strip "   " = "" ->
          forall t, ~ In (Info.mk blank 60 0, t) (rendered_lines 1 example_slide))
      /\ (forall t, In (Info.mk blank 60 0, t) (rendered_lines 1 example_slide) ->
                    t = Py.strip "   ")
      /\ (exists pre post,
             "   " = pre +:+ Py.strip "   " +:+ post
             /\ all_chars Py.isspace pre = true
             /\ all_chars Py.isspace post = true
             /\ (forall c, first_char (Py.strip "   ") = Some c ->
                           Py.isspace c = false)
             /\ (forall c, last_char (Py.strip "   ") = Some c ->
                           Py.isspace c = false)))
  /\ (forall s, all_chars Py.isspace s = true -> Py.strip s = "")
  /\ Py.strip "   " = "".
Proof.
  split; [exact example_slide_well_formed|].
  split; [exact example_blank_is_candidate|].
  split; [reflexivity|].
  exact (other_shapes_render_trimmed_text 1 example_slide (Info.mk blank 60 0)
           example_slide_well_formed example_blank_is_candidate eq_refl).
Defined.


Lemma extraction_all_or_nothing_witness :
  well_formed example_presentation
  /\ (exists bs : list string,
         extract_text_from_pptx (fun _ => Ok example_presentation) "deck.pptx"
         = Ok (separated_by_newline bs)
         /\ length bs = length (slides example_presentation)
         /\ (forall (k : nat) slide,
                slides example_presentation !! k = Some slide ->
                exists b, bs !! k = Some b
                          /\ is_block_of (1 + Z.of_nat k) slide b))
  /\ extract_text_from_pptx (fun _ => Raise "Package not found") "deck.pptx"
     = Raise ("Error processing PowerPoint file: " +:+ "Package not found").
Proof.
  split; [exact example_presentation_well_formed|]. split.
  - exact (proj1 (extraction_all_or_nothing
                    (fun _ => Ok example_presentation) "deck.pptx")
             example_presentation_well_formed).
  - exact (extraction_all_or_nothing (fun _ => Raise "Package not found")
             "deck.pptx").
Defined.

Lemma example_request_invalid :
  files example_request !! "file" = None
  \/ exists file, files example_request !! "file" = Some file
                  /\ (filename file = ""
                      \/ ~ has_allowed_extension (filename file)).
Proof.
  right. exists {| filename := "notes.txt"; content := "hello" |}.
  split; [reflexivity|]. right. simpl. intros Hext.
  destruct (allowed_file_spec "notes.txt") as (allowed & Hrun & Hallowed).
  apply Hallowed in Hext. subst allowed. vm_compute in Hrun. discriminate Hrun.
Defined.

Lemma invalid_upload_is_rejected_witness :
  (files example_request !! "file" = None
   \/ exists file, files example_request !! "file" = Some file
                   /\ (filename file = ""
                       \/ ~ has_allowed_extension (filename file)))
  /\ exists message,
      convert_pptx_to_text id example_save example_parse example_request empty_world
      = ({| body := JObj [("error", JStr message)]; status := 400 |}, empty_world)
      /\ calls (convert_pptx_to_text id example_save example_parse
                  example_request empty_world).2
         = calls empty_world.
Proof.
  split; [exact example_request_invalid|].
  exact (invalid_upload_is_rejected id example_save example_parse
           example_request empty_world example_request_invalid).
Defined.

(** The same upload under an allowed name goes through the extractor,
    here to the parser's failure; the saved file is removed again. *)
Example pptx_upload_reaches_extractor :
  let request :=
    {| files := {[ "file" := {| filename := "Deck.PPTX"; content := "hello" |} ]} |} in
  convert_pptx_to_text id example_save example_parse request empty_world
  = ({| body := JObj [("error",
                       JStr "Error processing PowerPoint file: File is not a zip file")];
        status := 500 |},
     {| fs := ∅;
        calls := [CallSave "uploads/Deck.PPTX"; CallExtract "uploads/Deck.PPTX";
                  CallRemove "uploads/Deck.PPTX"] |}).
Proof. by vm_compute. Qed.

(* ================================================================= *)
(** * Further properties of the code *)

(** ** Flattening *)

Lemma shift_shift dt dl dt' dl' info :
  shift dt dl (shift dt' dl' info) = shift (dt + dt') (dl + dl') info.
Proof. unfold shift. simpl. f_equal; lia. Qed.

Lemma flatten_step_shift shape : forall pt pl dt dl,
  flatten_step (dt + pt) (dl + pl) [] shape
  = map (shift dt dl) (flatten_step pt pl [] shape).
Proof.
  induction shape as [t l st pf tx members IH] using Shape_ind.
  intros pt pl dt dl. rewrite !flatten_step_unfold.
  set (s := Build_Shape t l st pf tx members).
  destruct (is_group s).
  - rewrite !get_shapes_flat_map, map_flat_map.
    apply flat_map_ext_Forall. change (shapes s) with members.
    eapply Forall_impl; [exact IH|]. intros m Hm. simpl.
    rewrite <- Hm. f_equal; lia.
  - simpl. unfold shift. simpl. do 2 f_equal; lia.
Qed.

Lemma get_shapes_shift members pt pl dt dl :
  get_shapes_with_abs_position members (dt + pt) (dl + pl)
  = map (shift dt dl) (get_shapes_with_abs_position members pt pl).
Proof.
  rewrite !get_shapes_flat_map, map_flat_map.
  apply flat_map_ext_Forall, Forall_forall. intros m _.
  apply flatten_step_shift.
Qed.

Lemma get_shapes_app xs ys pt pl :
  get_shapes_with_abs_position (xs ++ ys) pt pl
  = get_shapes_with_abs_position xs pt pl
    ++ get_shapes_with_abs_position ys pt pl.
Proof. by rewrite !get_shapes_flat_map, flat_map_app. Qed.

Lemma get_shapes_cons shape rest pt pl :
  get_shapes_with_abs_position (shape :: rest) pt pl
  = flatten_step pt pl [] shape ++ get_shapes_with_abs_position rest pt pl.
Proof. by rewrite !get_shapes_flat_map. Qed.

(** X1. The parent offset only moves the records: flattening from the
    accumulated offset [(parent_top, parent_left)] gives the records of
    flattening from (0,0), each moved by that offset, in the same order
    and with the same shapes. *)
Theorem flattening_translates (members : list Shape) (parent_top parent_left : Z) :
  get_shapes_with_abs_position members parent_top parent_left
  = map (shift parent_top parent_left)
      (get_shapes_with_abs_position members 0 0).
Proof.
  rewrite <- get_shapes_shift. f_equal; lia.
Qed.

(** X2. Flattening goes through a list piece by piece, and a group
    counts for its members moved by the group's offset: the records of
    [before ++ group :: after] are those of [before], then those of the
    group's members moved by the group's own offset, then those of
    [after]. *)
Theorem group_flattens_to_moved_members
    (before after : list Shape) (group : Shape) (parent_top parent_left : Z) :
  is_group group = true ->
  get_shapes_with_abs_position (before ++ group :: after) parent_top parent_left
  = get_shapes_with_abs_position before parent_top parent_left
    ++ map (shift (emu_or_0 (top group)) (emu_or_0 (left group)))
         (get_shapes_with_abs_position (shapes group) parent_top parent_left)
    ++ get_shapes_with_abs_position after parent_top parent_left.
Proof.
  intros Hgroup.
  rewrite get_shapes_app, get_shapes_cons, flatten_step_unfold, Hgroup.
  rewrite <- get_shapes_shift. do 2 f_equal. f_equal; lia.
Qed.

Lemma group_flattens_to_moved_members_witness :
  is_group (group_shape 100 100 [text_box 5 5 "Nested"]) = true
  /\ get_shapes_with_abs_position
       ([welcome] ++ group_shape 100 100 [text_box 5 5 "Nested"] :: [blank]) 1 2
     = get_shapes_with_abs_position [welcome] 1 2
       ++ map (shift (emu_or_0 (top (group_shape 100 100 [text_box 5 5 "Nested"])))
                 (emu_or_0 (left (group_shape 100 100 [text_box 5 5 "Nested"]))))
            (get_shapes_with_abs_position
               (shapes (group_shape 100 100 [text_box 5 5 "Nested"])) 1 2)
       ++ get_shapes_with_abs_position [blank] 1 2.
Proof.
  split; [reflexivity|].
  exact (group_flattens_to_moved_members [welcome] [blank]
           (group_shape 100 100 [text_box 5 5 "Nested"]) 1 2 eq_refl).
Defined.

(** ** Backfill *)

Lemma slide_idxs_reaches k slide :
  k ∈ slide_idxs slide
  <-> exists chain s, reaches (slide_shapes slide) chain s
                      /\ is_group s = false /\ shape_idx s = Some k.
Proof.
  rewrite slide_idxs_In, <- list_elem_of_In, list_elem_of_omap.
  unfold slide_records. rewrite get_shapes_leaves. split.
  - intros (info & Hin & Hk).
    apply list_elem_of_In, in_map_iff in Hin as ([chain s] & <- & Hin).
    apply leaves_reaches in Hin as [Hr Hng]. by exists chain, s.
  - intros (chain & s & Hr & Hng & Hk).
    exists (absolute (chain, s)). split; [|done].
    apply list_elem_of_In, in_map. by apply leaves_reaches.
Qed.

(** X3. The slide wins over layout and master: when a placeholder with
    index [k] is among the slide's own shapes, at the top or inside
    groups, neither loop adds a record of that index, and the candidate
    records of index [k] are the slide's own. *)
Theorem slide_placeholder_overrides_layout_and_master (slide : Slide) (k : Z) :
  well_formed_slide slide ->
  (exists chain s, reaches (slide_shapes slide) chain s
                   /\ is_group s = false /\ shape_idx s = Some k) ->
  exists all_shape_infos,
    all_shape_infos_of slide = Ok all_shape_infos
    /\ List.filter (has_idx k) all_shape_infos
       = List.filter (has_idx k) (slide_records slide)
    /\ List.filter (has_idx k) (layout_records slide) = []
    /\ List.filter (has_idx k) (master_records slide) = [].
Proof.
  intros Hwf Hown. apply slide_idxs_reaches in Hown.
  assert (Hlayout : List.filter (has_idx k) (layout_records slide) = []).
  { unfold layout_records. by rewrite layout_additions_slot, decide_True. }
  assert (Hmaster : List.filter (has_idx k) (master_records slide) = []).
  { unfold master_records. rewrite master_additions_slot.
    by rewrite decide_True by set_solver. }
  exists (candidates slide). split; [by apply all_shape_infos_of_ok|].
  split; [|done]. unfold candidates.
  by rewrite !List.filter_app, Hlayout, Hmaster, !app_nil_r.
Qed.

Lemma example_title_reached :
  exists chain s, reaches (slide_shapes example_slide) chain s
                  /\ is_group s = false /\ shape_idx s = Some 0.
Proof.
  exists [], slide_title. split; [|split; reflexivity].
  apply reaches_member. simpl. tauto.
Defined.

Lemma slide_placeholder_overrides_layout_and_master_witness :
  well_formed_slide example_slide
  /\ (exists chain s, reaches (slide_shapes example_slide) chain s
                      /\ is_group s = false /\ shape_idx s = Some 0)
  /\ exists all_shape_infos,
      all_shape_infos_of example_slide = Ok all_shape_infos
      /\ List.filter (has_idx 0) all_shape_infos
         = List.filter (has_idx 0) (slide_records example_slide)
      /\ List.filter (has_idx 0) (layout_records example_slide) = []
      /\ List.filter (has_idx 0) (master_records example_slide) = [].
Proof.
  split; [exact example_slide_well_formed|].
  split; [exact example_title_reached|].
  exact (slide_placeholder_overrides_layout_and_master example_slide 0
           example_slide_well_formed example_title_reached).
Defined.

(** X4. The two loops treat a repeated index differently. For an index
    the slide does not supply, the loop over the layout adds the first
    placeholder of the layout with that index and no other; the loop
    over the master, which does not note what it adds, adds every
    placeholder of the master with an index that slide and layout leave
    uncovered, repeats included. *)
Theorem layout_adds_first_master_adds_all (slide : Slide) (k : Z) :
  well_formed_slide slide ->
  k ∉ slide_idxs slide ->
  all_shape_infos_of slide
    = Ok (slide_records slide ++ layout_records slide ++ master_records slide)
  /\ List.filter (has_idx k) (layout_records slide)
     = match List.find (shape_has_idx k)
               (layout_placeholders (slide_layout slide)) with
       | Some first => [backfill_record first]
       | None => []
       end
  /\ (~ In k (idxs_of (layout_placeholders (slide_layout slide))) ->
      List.filter (has_idx k) (master_records slide)
      = map backfill_record
          (List.filter (shape_has_idx k)
             (master_placeholders (slide_master (slide_layout slide))))).
Proof.
  intros Hwf Hk. split; [by apply all_shape_infos_of_ok|]. split.
  - unfold layout_records. by rewrite layout_additions_slot, decide_False.
  - intros Hlayout. unfold master_records.
    rewrite master_additions_slot, decide_False; [done|].
    rewrite elem_of_union, elem_of_list_to_set, list_elem_of_In. tauto.
Qed.

Lemma layout_adds_first_master_adds_all_witness :
  well_formed_slide repeating_slide
  /\ 7 ∉ slide_idxs repeating_slide
  /\ all_shape_infos_of repeating_slide
     = Ok (slide_records repeating_slide ++ layout_records repeating_slide
           ++ master_records repeating_slide)
  /\ List.filter (has_idx 7) (layout_records repeating_slide)
     = match List.find (shape_has_idx 7)
               (layout_placeholders (slide_layout repeating_slide)) with
       | Some first => [backfill_record first]
       | None => []
       end
  /\ (~ In 7 (idxs_of (layout_placeholders (slide_layout repeating_slide))) ->
      List.filter (has_idx 7) (master_records repeating_slide)
      = map backfill_record
          (List.filter (shape_has_idx 7)
             (master_placeholders (slide_master (slide_layout repeating_slide))))).
Proof.
  assert (Hwf : well_formed_slide repeating_slide) by (split; repeat constructor).
  assert (Hk : 7 ∉ slide_idxs repeating_slide)
    by (apply (bool_decide_unpack _); by vm_compute).
  split; [exact Hwf|]. split; [exact Hk|].
  exact (layout_adds_first_master_adds_all repeating_slide 7 Hwf Hk).
Defined.

(** On the slide with the repeated indices: one record for the layout's
    index 3, two for the master's index 7. *)
Example repeating_slide_counts :
  count_idx 3 (candidates repeating_slide) = 1%nat
  /\ count_idx 7 (candidates repeating_slide) = 2%nat.
Proof. by vm_compute. Qed.

(** ** Reading order *)

Lemma Permutation_filter {A} (p : A -> bool) l l' :
  Permutation l l' -> Permutation (List.filter p l) (List.filter p l').
Proof.
  induction 1 as [|x l l' _ IH|x y l|l l' l'' _ IH1 _ IH2]; simpl.
  - done.
  - destruct (p x); [by constructor|done].
  - destruct (p x), (p y); try done. apply perm_swap.
  - by etransitivity.
Qed.

Lemma filter_key_NoDup k (l : list Info.t) :
  NoDup (map key l) -> (length (List.filter (same_key k) l) <= 1)%nat.
Proof.
  induction l as [|x l IH]; simpl; [lia|].
  intros Hnd. apply NoDup_cons in Hnd as [Hx Hnd]. specialize (IH Hnd).
  unfold same_key at 1, has_key.
  destruct (bool_decide_reflect (key x = k)) as [Hk|Hk]; [|done].
  destruct (List.filter (same_key k) l) as [|y rest] eqn:Hf; [simpl; lia|].
  destruct Hx. assert (Hy : In y (List.filter (same_key k) l))
    by (rewrite Hf; by left).
  apply filter_In in Hy as [Hy Hyk].
  apply bool_decide_eq_true in Hyk. rewrite Hk, <- Hyk.
  apply list_elem_of_In, in_map. done.
Qed.

(** Records at pairwise different positions come out of [sorted] in the
    same order whatever order they went in. *)
Lemma sorted_of_Permutation (l l' : list Info.t) :
  Permutation l l' -> NoDup (map key l) ->
  Py.sorted key_leb l = Py.sorted key_leb l'.
Proof.
  intros Hperm Hnd.
  apply sorted_is_the_stable_sort.
  - apply StronglySorted_key_le, sorted_StronglySorted;
      [apply key_leb_total | apply key_leb_trans].
  - intros k. change (same_key k) with (has_key key k).
    rewrite (sorted_stable key_leb key key_leb_same_key).
    pose proof (filter_key_NoDup k l Hnd) as Hlen.
    change (same_key k) with (has_key key k) in Hlen.
    pose proof (Permutation_filter (has_key key k) _ _ Hperm) as Hf.
    destruct (List.filter (has_key key k) l) as [|x [|y rest]].
    + by apply Permutation_nil in Hf.
    + by apply Permutation_length_1_inv in Hf.
    + simpl in Hlen. lia.
Qed.

Lemma get_shapes_Permutation xs ys pt pl :
  Permutation xs ys ->
  Permutation (get_shapes_with_abs_position xs pt pl)
    (get_shapes_with_abs_position ys pt pl).
Proof.
  intros Hperm. rewrite !get_shapes_flat_map. by apply Permutation_flat_map.
Qed.

Lemma candidates_with_shapes slide shapes_ :
  Permutation (slide_records slide) (get_shapes_with_abs_position shapes_ 0 0) ->
  Permutation (candidates slide) (candidates (with_shapes slide shapes_)).
Proof.
  intros Hperm.
  assert (Hidxs : slide_idxs (with_shapes slide shapes_) = slide_idxs slide).
  { unfold slide_idxs, slide_records at 1. simpl.
    apply list_to_set_perm_L, omap_Permutation. by symmetry. }
  unfold candidates, layout_records, master_records.
  rewrite Hidxs. simpl slide_layout. by apply Permutation_app_tail.
Qed.

Lemma well_formed_with_shapes slide shapes_ :
  well_formed_slide (with_shapes slide shapes_) <-> well_formed_slide slide.
Proof. reflexivity. Qed.

(** Slides on one layout whose text-bearing candidates are the same
    records give the same text. *)
Lemma slide_text_of_same_records i slide slide' :
  slide_layout slide' = slide_layout slide ->
  sorted_shape_infos_of (candidates slide')
  = sorted_shape_infos_of (candidates slide) ->
  slide_text_of i slide' = slide_text_of i slide.
Proof.
  intros Hlayout Hsame.
  destruct (decide (well_formed_slide slide)) as [Hwf|Hbad].
  - assert (Hwf' : well_formed_slide slide').
    { unfold well_formed_slide. by rewrite Hlayout. }
    rewrite !slide_text_of_ok by done.
    unfold block, rendered_lines. by rewrite Hsame.
  - assert (Hbad' : ~ well_formed_slide slide').
    { unfold well_formed_slide. by rewrite Hlayout. }
    by rewrite !slide_text_of_raises.
Qed.

(** X5. The text of a slide follows positions, not the order in which
    the shapes were authored: when the text-bearing candidate records of
    a slide sit at pairwise different (top, left), the slide gives the
    same text with its shapes in any other order. *)
Theorem authored_order_is_irrelevant (i : Z) (slide : Slide) (shapes_ : list Shape) :
  Permutation (slide_shapes slide) shapes_ ->
  NoDup (map key (text_shape_infos_of (candidates slide))) ->
  slide_text_of i (with_shapes slide shapes_) = slide_text_of i slide
  /\ (well_formed_slide slide -> slide_text_of i slide = Ok (block i slide)).
Proof.
  intros Hperm Hnd. split; [|apply slide_text_of_ok].
  apply slide_text_of_same_records; [done|].
  unfold sorted_shape_infos_of. symmetry.
  apply sorted_of_Permutation; [|done].
  unfold text_shape_infos_of. apply Permutation_filter.
  apply candidates_with_shapes. by apply get_shapes_Permutation.
Qed.

Lemma authored_order_is_irrelevant_witness :
  Permutation (slide_shapes example_slide) (rev (slide_shapes example_slide))
  /\ NoDup (map key (text_shape_infos_of (candidates example_slide)))
  /\ slide_text_of 1 (with_shapes example_slide (rev (slide_shapes example_slide)))
     = slide_text_of 1 example_slide
  /\ (well_formed_slide example_slide ->
      slide_text_of 1 example_slide = Ok (block 1 example_slide)).
Proof.
  assert (Hperm : Permutation (slide_shapes example_slide)
                    (rev (slide_shapes example_slide)))
    by apply Permutation_rev.
  assert (Hnd : NoDup (map key (text_shape_infos_of (candidates example_slide))))
    by (apply (bool_decide_unpack _); by vm_compute).
  split; [exact Hperm|]. split; [exact Hnd|].
  exact (authored_order_is_irrelevant 1 example_slide
           (rev (slide_shapes example_slide)) Hperm Hnd).
Defined.

(** X6. A shape of the slide that is no group, no placeholder and has
    no text attribute (a picture, a connector) leaves the text of the
    slide as it is without it, wherever it stands among the shapes. *)
Theorem textless_shape_is_ignored
    (i : Z) (slide : Slide) (before after : list Shape) (extra : Shape) :
  slide_shapes slide = before ++ after ->
  is_group extra = false ->
  placeholder_format extra = None ->
  text extra = None ->
  slide_text_of i (with_shapes slide (before ++ extra :: after))
  = slide_text_of i slide.
Proof.
  intros Hshapes Hgroup Hph Htext.
  apply slide_text_of_same_records; [done|].
  assert (Hrecords :
    slide_records (with_shapes slide (before ++ extra :: after))
    = get_shapes_with_abs_position before 0 0
      ++ [Info.mk extra (0 + emu_or_0 (top extra)) (0 + emu_or_0 (left extra))]
      ++ get_shapes_with_abs_position after 0 0).
  { unfold slide_records. simpl.
    by rewrite get_shapes_app, get_shapes_cons, flatten_step_unfold, Hgroup. }
  assert (Hown : slide_records slide
                 = get_shapes_with_abs_position before 0 0
                   ++ get_shapes_with_abs_position after 0 0).
  { unfold slide_records. by rewrite Hshapes, get_shapes_app. }
  assert (Hidxs : slide_idxs (with_shapes slide (before ++ extra :: after))
                  = slide_idxs slide).
  { unfold slide_idxs. rewrite Hrecords, Hown, !omap_app. simpl.
    unfold record_idx at 2, shape_idx. simpl. by rewrite Hph. }
  unfold sorted_shape_infos_of. f_equal.
  unfold candidates, layout_records, master_records.
  rewrite Hidxs, Hrecords, Hown. simpl slide_layout.
  unfold text_shape_infos_of. rewrite !List.filter_app. simpl.
  unfold has_text at 2. simpl. by rewrite Htext.
Qed.

Lemma textless_shape_is_ignored_witness :
  slide_shapes example_slide = [welcome] ++ skipn 1 (slide_shapes example_slide)
  /\ is_group (picture 7 7) = false
  /\ placeholder_format (picture 7 7) = None
  /\ text (picture 7 7) = None
  /\ slide_text_of 2
       (with_shapes example_slide
          ([welcome] ++ picture 7 7 :: skipn 1 (slide_shapes example_slide)))
     = slide_text_of 2 example_slide.
Proof.
  split; [reflexivity|]. split; [reflexivity|].
  split; [reflexivity|]. split; [reflexivity|].
  exact (textless_shape_is_ignored 2 example_slide [welcome]
           (skipn 1 (slide_shapes example_slide)) (picture 7 7)
           eq_refl eq_refl eq_refl eq_refl).
Defined.

(** ** Text lines *)

Lemma all_chars_first p s c :
  all_chars p s = true -> first_char s = Some c -> p c = true.
Proof.
  destruct s as [|d s]; simpl; [done|].
  rewrite andb_true_iff. by intros [Hd _] [= <-].
Qed.

Lemma contributed_text_first i shape c :
  first_char (contributed_text i shape) = Some c -> Py.isspace c = false.
Proof.
  unfold contributed_text. destruct (slide_number_placeholder shape).
  - intros Hfirst. apply digit_or_minus_not_space.
    by apply (all_chars_first _ (Py.str i)); [apply str_chars|].
  - destruct (text shape) as [content_|]; [|done].
    destruct (strip_spec content_) as (_ & _ & _ & _ & _ & Hfirst & _).
    apply Hfirst.
Qed.

(** X7. A slide emits one text per record that contributes: the whole
    stripped text of the shape, its inner newlines kept as they are, or
    the slide number. Every such text is non-empty and neither begins
    nor ends with a whitespace character; the slide's text is the header
    followed by these texts, a newline after each. Nothing is said of the
    single lines inside a text: the strip is applied to the text as a
    whole. *)
Theorem emitted_lines_are_trimmed (i : Z) (slide : Slide) :
  well_formed_slide slide ->
  slide_text_of i slide
    = Ok (header i
          +:+ concat_all (map (fun line => line.2 +:+ Py.nl)
                            (rendered_lines i slide)))
  /\ Forall (fun line =>
               line.2 <> ""
               /\ (forall c, first_char line.2 = Some c -> Py.isspace c = false)
               /\ (forall c, last_char line.2 = Some c -> Py.isspace c = false))
       (rendered_lines i slide).
Proof.
  intros Hwf. split; [by apply slide_text_of_ok|].
  apply Forall_forall. intros [info t] Hin.
  apply list_elem_of_In, rendered_lines_In in Hin as (_ & _ & -> & Hne).
  simpl. split; [by apply nonempty_ne|]. split.
  - apply contributed_text_first.
  - apply contributed_text_last.
Qed.

(** The strip works on a shape's text as a whole: an empty line and a
    line that begins with a space inside the text are emitted as they
    are. *)
Example inner_lines_are_kept :
  slide_text_of 1 three_line_slide
  = Ok ("=== SLIDE 1 ===" +:+ Py.nl
        +:+ "a" +:+ Py.nl +:+ Py.nl +:+ " b" +:+ Py.nl)
  /\ map snd (rendered_lines 1 three_line_slide)
     = ["a" +:+ Py.nl +:+ Py.nl +:+ " b"].
Proof. by vm_compute. Qed.

Lemma emitted_lines_are_trimmed_witness :
  well_formed_slide example_slide
  /\ slide_text_of 2 example_slide
     = Ok (header 2
           +:+ concat_all (map (fun line => line.2 +:+ Py.nl)
                             (rendered_lines 2 example_slide)))
  /\ Forall (fun line =>
               line.2 <> ""
               /\ (forall c, first_char line.2 = Some c -> Py.isspace c = false)
               /\ (forall c, last_char line.2 = Some c -> Py.isspace c = false))
       (rendered_lines 2 example_slide).
Proof.
  split; [exact example_slide_well_formed|].
  exact (emitted_lines_are_trimmed 2 example_slide example_slide_well_formed).
Defined.

Lemma emitted_same_texts i j infos :
  Forall (fun info => slide_number_placeholder (Info.shape info) = false) infos ->
  emitted i infos = emitted j infos.
Proof.
  induction 1 as [|info infos Hinfo _ IH]; [done|].
  rewrite !emitted_cons, IH. unfold contributed_text. by rewrite Hinfo.
Qed.

(** X8. The slide's index enters its text through the header and
    through SlideNumber placeholders only: a slide none of whose
    text-bearing candidate records is a SlideNumber placeholder has the
    same body under every index. *)
Theorem index_changes_header_only (i j : Z) (slide : Slide) :
  well_formed_slide slide ->
  (forall info, In info (candidates slide) ->
                has_text (Info.shape info) = true ->
                slide_number_placeholder (Info.shape info) = false) ->
  exists body_,
    slide_text_of i slide = Ok (header i +:+ body_)
    /\ slide_text_of j slide = Ok (header j +:+ body_).
Proof.
  intros Hwf Hnone. exists (body_of (rendered_lines i slide)).
  rewrite !slide_text_of_ok by done. split; [done|].
  unfold block, rendered_lines. do 3 f_equal.
  apply emitted_same_texts, Forall_forall. intros info Hin.
  apply list_elem_of_In, In_sorted_shape_infos in Hin as [Hin Htext]. auto.
Qed.

(** X9. A presentation without slides gives the empty text and no
    error; one with slides gives a text that begins with the header of
    slide 1, so the text is empty for the empty presentation only. *)
Theorem empty_text_only_without_slides (presentation : Presentation) :
  well_formed presentation ->
  (slides presentation = [] -> extract_text presentation = Ok "")
  /\ (slides presentation <> [] ->
      exists rest, extract_text presentation
                   = Ok ("=== SLIDE 1 ===" +:+ Py.nl +:+ rest))
  /\ (extract_text presentation = Ok "" <-> slides presentation = []).
Proof.
  intros Hwf. rewrite extract_text_ok by done. unfold blocks.
  destruct (slides presentation) as [|slide rest] eqn:Hslides.
  - split; [done|]. split; [done|]. done.
  - assert (Hhead : exists tail,
               Py.join Py.nl
                 (map (fun entry => block entry.1 entry.2)
                    (Py.enumerate (slide :: rest) 1))
               = "=== SLIDE 1 ===" +:+ Py.nl +:+ tail).
    { simpl Py.enumerate. simpl map. unfold block at 1.
      change (header 1) with ("=== SLIDE 1 ===" +:+ Py.nl).
      destruct (map _ (Py.enumerate rest (1 + 1))) as [|b bs].
      - eexists. unfold Py.join. simpl String.concat.
        by rewrite !append_assoc.
      - eexists. unfold Py.join. simpl String.concat.
        by rewrite !append_assoc. }
    destruct Hhead as (tail & ->).
    split; [done|]. split; [by exists tail|].
    split; [by intros [= Hempty]|done].
Qed.

Lemma repeating_slide_well_formed : well_formed_slide repeating_slide.
Proof. split; repeat constructor. Defined.

Lemma repeating_slide_has_no_number :
  forall info, In info (candidates repeating_slide) ->
               has_text (Info.shape info) = true ->
               slide_number_placeholder (Info.shape info) = false.
Proof.
  intros info Hin _. vm_compute in Hin.
  repeat (destruct Hin as [<-|Hin]; [reflexivity|]). destruct Hin.
Defined.

Lemma index_changes_header_only_witness :
  well_formed_slide repeating_slide
  /\ (forall info, In info (candidates repeating_slide) ->
                   has_text (Info.shape info) = true ->
                   slide_number_placeholder (Info.shape info) = false)
  /\ exists body_,
      slide_text_of 1 repeating_slide = Ok (header 1 +:+ body_)
      /\ slide_text_of 5 repeating_slide = Ok (header 5 +:+ body_).
Proof.
  split; [exact repeating_slide_well_formed|].
  split; [exact repeating_slide_has_no_number|].
  exact (index_changes_header_only 1 5 repeating_slide
           repeating_slide_well_formed repeating_slide_has_no_number).
Defined.

Lemma empty_text_only_without_slides_witness :
  well_formed example_presentation
  /\ (slides example_presentation = [] -> extract_text example_presentation = Ok "")
  /\ (slides example_presentation <> [] ->
      exists rest, extract_text example_presentation
                   = Ok ("=== SLIDE 1 ===" +:+ Py.nl +:+ rest))
  /\ (extract_text example_presentation = Ok ""
      <-> slides example_presentation = []).
Proof.
  split; [exact example_presentation_well_formed|].
  exact (empty_text_only_without_slides example_presentation
           example_presentation_well_formed).
Defined.

(** ** [allowed_file] *)

Lemma rsplit1_of_split sep stem ext :
  Py.contains sep ext = false ->
  Py.rsplit1 sep (stem +:+ String sep ext) = [stem; ext].
Proof.
  intros Hext.
  pose proof (rsplit1_spec sep (stem +:+ String sep ext)) as Hsplit.
  destruct (Py.rsplit1 sep _) as [|a [|b [|? ?]]]; try done.
  - destruct Hsplit as [_ Hno]. rewrite contains_append in Hno.
    simpl in Hno. rewrite Ascii.eqb_refl in Hno.
    by rewrite orb_true_r in Hno.
  - destruct Hsplit as (Heq & Hb & _).
    by destruct (split_last_unique _ _ _ _ _ Heq Hext Hb) as [-> ->].
Qed.

Lemma rsplit1_without_sep sep s :
  Py.contains sep s = false -> Py.rsplit1 sep s = [s].
Proof.
  intros Hno. pose proof (rsplit1_spec sep s) as Hsplit.
  destruct (Py.rsplit1 sep s) as [|a [|b [|? ?]]]; try done.
  - by destruct Hsplit as [-> _].
  - destruct Hsplit as (_ & _ & Hyes). congruence.
Qed.

Lemma allowed_extension_bool ext :
  bool_decide (Py.lower ext ∈ ALLOWED_EXTENSIONS)
  = spells "pptx" ext || spells "ppt" ext.
Proof.
  apply eq_true_iff_eq.
  rewrite bool_decide_eq_true, allowed_extension_lower, orb_true_iff. tauto.
Qed.

Lemma allowed_file_of_split stem ext :
  Py.contains "." ext = false ->
  allowed_file (stem +:+ String "." ext)
  = Ok (spells "pptx" ext || spells "ppt" ext).
Proof.
  intros Hext. unfold allowed_file.
  rewrite contains_append. simpl Py.contains at 2. rewrite orb_true_r.
  rewrite rsplit1_of_split by done. simpl item1. rewrite bind_Ok.
  by rewrite allowed_extension_bool.
Qed.

Lemma allowed_file_without_dot name :
  Py.contains "." name = false -> allowed_file name = Ok false.
Proof. intros Hno. unfold allowed_file. by rewrite Hno. Qed.

(** X10. [allowed_file] never raises, whatever the name, and looks at
    nothing but what follows the last dot: a name without a dot is
    refused; a name [stem.ext], [ext] holding no dot, is accepted exactly
    when [ext] spells "pptx" or "ppt" in whatever case, be [stem] empty
    or itself full of dots. *)
Theorem allowed_file_looks_at_last_extension :
  (forall name, exists allowed, allowed_file name = Ok allowed)
  /\ (forall name, Py.contains "." name = false -> allowed_file name = Ok false)
  /\ (forall stem ext,
         Py.contains "." ext = false ->
         allowed_file (stem +:+ String "." ext)
         = Ok (spells "pptx" ext || spells "ppt" ext)).
Proof.
  split; [|split].
  - intros name. destruct (allowed_file_spec name) as (allowed & Hrun & _).
    by exists allowed.
  - apply allowed_file_without_dot.
  - apply allowed_file_of_split.
Qed.

Lemma allowed_file_looks_at_last_extension_witness :
  Py.contains "." "pptx" = false
  /\ allowed_file "pptx" = Ok false
  /\ Py.contains "." "PpTx" = false
  /\ allowed_file ("archive.2024.v2" +:+ String "." "PpTx")
     = Ok (spells "pptx" "PpTx" || spells "ppt" "PpTx").
Proof.
  split; [reflexivity|]. split.
  - exact (proj1 (proj2 allowed_file_looks_at_last_extension) "pptx" eq_refl).
  - split; [reflexivity|].
    exact (proj2 (proj2 allowed_file_looks_at_last_extension)
             "archive.2024.v2" "PpTx" eq_refl).
Defined.

Lemma lower_char_idem c : Py.lower_char (Py.lower_char c) = Py.lower_char c.
Proof. destruct c as [[] [] [] [] [] [] [] []]; by vm_compute. Qed.

Lemma lower_char_dot c : Ascii.eqb (Py.lower_char c) "." = Ascii.eqb c ".".
Proof. destruct c as [[] [] [] [] [] [] [] []]; by vm_compute. Qed.

Lemma lower_idem s : Py.lower (Py.lower s) = Py.lower s.
Proof.
  induction s as [|c s IH]; simpl; [done|]. by rewrite lower_char_idem, IH.
Qed.

Lemma lower_append s t : Py.lower (s +:+ t) = Py.lower s +:+ Py.lower t.
Proof.
  induction s as [|c s IH]; [done|].
  rewrite append_cons. simpl. by rewrite IH, append_cons.
Qed.

Lemma contains_dot_lower s : Py.contains "." (Py.lower s) = Py.contains "." s.
Proof.
  induction s as [|c s IH]; simpl; [done|]. by rewrite lower_char_dot, IH.
Qed.

Lemma spells_lower word s :
  all_chars is_ptx word = true -> spells word (Py.lower s) = spells word s.
Proof.
  intros Hword. apply eq_true_iff_eq.
  rewrite <- !(lower_spells word Hword). by rewrite lower_idem.
Qed.

(** X11. [allowed_file] does not see the case of letters: a name and
    the name in lower case get the same answer. *)
Theorem allowed_file_ignores_case (name : string) :
  allowed_file (Py.lower name) = allowed_file name.
Proof.
  destruct (Py.contains "." name) eqn:Hdot.
  - pose proof (rsplit1_spec "." name) as Hsplit.
    destruct (Py.rsplit1 "." name) as [|stem [|ext [|? ?]]]; try done.
    + destruct Hsplit as [_ Hno]. congruence.
    + destruct Hsplit as (-> & Hext & _).
      rewrite lower_append. simpl Py.lower at 2.
      change (Py.lower_char ".") with "."%char.
      rewrite !allowed_file_of_split by (by rewrite ?contains_dot_lower).
      by rewrite !spells_lower.
  - rewrite !allowed_file_without_dot; by rewrite ?contains_dot_lower.
Qed.

(** ** The [/api/convert-to-text] view on an accepted upload *)

Lemma validation_rejects name :
  name = "" \/ ~ has_allowed_extension name ->
  (if bool_decide (name = "") then Ok true
   else allowed_file name ≫= λ allowed : bool, Ok (negb allowed)) = Ok true.
Proof.
  intros Hbad.
  destruct (bool_decide_reflect (name = "")) as [He|He]; [done|].
  destruct Hbad as [Hbad|Hbad]; [done|].
  destruct (allowed_file_spec name) as (allowed & -> & Hallowed).
  rewrite bind_Ok. destruct allowed; [|done]. destruct Hbad. tauto.
Qed.

Lemma validation_accepts name :
  name <> "" -> has_allowed_extension name ->
  (if bool_decide (name = "") then Ok true
   else allowed_file name ≫= λ allowed : bool, Ok (negb allowed)) = Ok false.
Proof.
  intros Hne Hext. rewrite bool_decide_eq_false_2 by done.
  destruct (allowed_file_spec name) as (allowed & -> & Hallowed).
  rewrite bind_Ok. apply Hallowed in Hext. by subst allowed.
Qed.

Lemma fs_cleanup filepath w : fs (cleanup filepath w) = delete filepath (fs w).
Proof.
  unfold cleanup. destruct (decide (is_Some (fs w !! filepath))) as [Hin|Hout].
  - done.
  - symmetry. apply delete_id. by apply eq_None_not_Some.
Qed.

Section TextView.
Variable secure_filename : string -> string.
Variable save : FileStorage -> string -> gmap string string
                -> result (gmap string string).
Variable parse : string -> result Presentation.
Variable request : Request.
Variable file : FileStorage.
Variable w : World.

Hypothesis file_part : files request !! "file" = Some file.
Hypothesis file_named : filename file <> "".
Hypothesis file_allowed : has_allowed_extension (filename file).

Lemma text_view_accepted :
  convert_pptx_to_text secure_filename save parse request w
  = ((save_and_extract save parse file (secure_filename (filename file))
        (upload_path (secure_filename (filename file))) w).1,
     cleanup (upload_path (secure_filename (filename file)))
       (save_and_extract save parse file (secure_filename (filename file))
          (upload_path (secure_filename (filename file))) w).2).
Proof.
  unfold convert_pptx_to_text.
  rewrite file_part, validation_accepts by done.
  by destruct (save_and_extract _ _ _ _ _ _).
Qed.

(** X12. The answer to an accepted upload. When saving raises, the
    answer is 500 with that exception's text. When the saved file does
    not parse, or parses to a document that breaks the parser's promise,
    the answer is 500 with the extractor's message, prefix included.
    Otherwise it is 200 with [success], the whole extracted text and the
    secured file name. *)
Theorem text_view_answer :
  let name := secure_filename (filename file) in
  let filepath := upload_path name in
  let response := (convert_pptx_to_text secure_filename save parse request w).1 in
  match save file filepath (fs w) with
  | Raise e =>
      response = {| body := JObj [("error", JStr e)]; status := 500 |}
  | Ok files1 =>
      match open_presentation_in parse files1 filepath with
      | Raise cause =>
          response
          = {| body := JObj [("error",
                              JStr ("Error processing PowerPoint file: "
                                    +:+ cause))];
               status := 500 |}
      | Ok presentation =>
          (well_formed presentation ->
           response
           = {| body := JObj [("success", JBool true);
                              ("text", JStr (Py.join Py.nl (blocks presentation)));
                              ("filename", JStr name)];
                status := 200 |})
          /\ (~ well_formed presentation ->
              response
              = {| body := JObj [("error",
                                  JStr ("Error processing PowerPoint file: "
                                        +:+ "shape is not a placeholder"))];
                   status := 500 |})
      end
  end.
Proof.
  intros name filepath response. unfold response.
  rewrite text_view_accepted. cbn [fst]. unfold save_and_extract.
  fold name. fold filepath. cbn [fs record_call].
  destruct (save file filepath (fs w)) as [files1|e]; [|done].
  cbn [fs record_call]. unfold extract_text_from_pptx.
  destruct (open_presentation_in parse files1 filepath) as [presentation|cause];
    [|done].
  rewrite bind_Ok. split; intros Hwf.
  - by rewrite extract_text_ok.
  - by rewrite extract_text_raises.
Qed.

(** X13. After an accepted upload the upload folder holds no file under
    the upload's path, whether saving and extracting went well or not,
    and also when a file of that name was there before and saving
    failed; every other path holds what [save] left there. *)
Theorem text_view_removes_upload :
  let filepath := upload_path (secure_filename (filename file)) in
  let after := fs (convert_pptx_to_text secure_filename save parse request w).2 in
  let saved := match save file filepath (fs w) with
               | Ok files1 => files1
               | Raise _ => fs w
               end in
  after = delete filepath saved
  /\ after !! filepath = None
  /\ (forall path, path <> filepath -> after !! path = saved !! path).
Proof.
  intros filepath after saved.
  assert (Hafter : after = delete filepath saved).
  { unfold after, saved. rewrite text_view_accepted. cbn [snd].
    rewrite fs_cleanup. f_equal. unfold save_and_extract.
    fold filepath. cbn [fs record_call].
    destruct (save file filepath (fs w)) as [files1|e]; [|done].
    by destruct (extract_text_from_pptx _ _). }
  split; [done|]. rewrite Hafter. split.
  - apply lookup_delete_eq.
  - intros path Hpath. by apply lookup_delete_ne.
Qed.

(** X14. The calls of an accepted upload are, in this order: one
    [save]; then, only if it succeeded, one call of the extractor on
    the saved path; then a removal of that path if a file is there.
    Nothing else is called and no other path is removed. *)
Theorem text_view_calls :
  let filepath := upload_path (secure_filename (filename file)) in
  calls (convert_pptx_to_text secure_filename save parse request w).2
  = calls w
    ++ match save file filepath (fs w) with
       | Raise _ =>
           CallSave filepath
           :: (if decide (is_Some (fs w !! filepath))
               then [CallRemove filepath] else [])
       | Ok files1 =>
           CallSave filepath :: CallExtract filepath
           :: (if decide (is_Some (files1 !! filepath))
               then [CallRemove filepath] else [])
       end.
Proof.
  intros filepath. rewrite text_view_accepted. cbn [snd].
  unfold save_and_extract. fold filepath. cbn [fs record_call].
  destruct (save file filepath (fs w)) as [files1|e].
  - cbn [fs record_call calls].
    destruct (extract_text_from_pptx _ _); unfold cleanup;
      cbn [snd fs calls record_call];
      destruct (decide (is_Some (files1 !! filepath)));
      cbn [record_call calls fs]; by rewrite <- ?app_assoc, ?app_nil_r.
  - unfold cleanup. cbn [snd fs calls record_call].
    destruct (decide (is_Some (fs w !! filepath)));
      cbn [record_call calls fs]; by rewrite <- ?app_assoc, ?app_nil_r.
Qed.
End TextView.

(** ** The [/api/convert-to-pdf] view *)

Lemma pdf_filename_of_spec name :
  exists stem,
    pdf_filename_of name = Ok (stem +:+ ".pdf")
    /\ ((Py.contains "." name = false /\ stem = name)
        \/ exists ext, name = stem +:+ String "." ext
                       /\ Py.contains "." ext = false).
Proof.
  unfold pdf_filename_of.
  pose proof (rsplit1_spec "." name) as Hsplit.
  destruct (Py.rsplit1 "." name) as [|stem [|ext [|? ?]]]; try done.
  - destruct Hsplit as [-> Hno]. exists name. split; [done|]. by left.
  - destruct Hsplit as (-> & Hext & _). exists stem. split; [done|].
    right. by exists ext.
Qed.

(** X15. The name of the PDF is always defined: it is the file name up
    to its last dot (the whole name when there is none) followed by
    ".pdf". Taking the PDF name of a PDF name changes nothing, and a
    file name is its own PDF name exactly when it ends with ".pdf",
    the case in which upload and output share one path. *)
Theorem pdf_filename_replaces_last_extension (name : string) :
  exists stem,
    pdf_filename_of name = Ok (stem +:+ ".pdf")
    /\ ((Py.contains "." name = false /\ stem = name)
        \/ exists ext, name = stem +:+ String "." ext
                       /\ Py.contains "." ext = false)
    /\ pdf_filename_of (stem +:+ ".pdf") = Ok (stem +:+ ".pdf")
    /\ (pdf_filename_of name = Ok name <-> exists stem', name = stem' +:+ ".pdf").
Proof.
  assert (Hfix : forall stem', pdf_filename_of (stem' +:+ ".pdf")
                               = Ok (stem' +:+ ".pdf")).
  { intros stem'. unfold pdf_filename_of.
    change (stem' +:+ ".pdf") with (stem' +:+ String "." "pdf").
    by rewrite rsplit1_of_split. }
  destruct (pdf_filename_of_spec name) as (stem & Hrun & Hshape).
  exists stem. split; [done|]. split; [done|]. split; [apply Hfix|].
  split.
  - rewrite Hrun. intros [= Hname]. by exists stem.
  - intros (stem' & ->). apply Hfix.
Qed.

Lemma pdf_fs_remove_if_exists path w :
  pdf_fs (remove_if_exists path w) = delete path (pdf_fs w).
Proof.
  unfold remove_if_exists.
  destruct (decide (is_Some (pdf_fs w !! path))) as [Hin|Hout]; [done|].
  symmetry. apply delete_id. by apply eq_None_not_Some.
Qed.

Lemma pdf_fs_cleanup filepath pdf_filepath w :
  pdf_fs (pdf_cleanup filepath pdf_filepath w)
  = delete pdf_filepath (delete filepath (pdf_fs w)).
Proof. unfold pdf_cleanup. by rewrite !pdf_fs_remove_if_exists. Qed.

(** X16. The two views refuse the same requests in the same words: a
    request without a 'file' part, with an empty file name or with a
    name that has no allowed extension gets from the PDF view the JSON
    error and status 400 that the text view gives, and the PDF view
    calls nothing and leaves its world as it was. *)
Theorem pdf_view_rejects_like_text_view
    (secure_filename : string -> string)
    (save : FileStorage -> string -> gmap string string
            -> result (gmap string string))
    (soffice : string -> string -> gmap string string -> Completion)
    (FileResponse : Type)
    (send_from_directory : string -> string -> gmap string string
                           -> result FileResponse)
    (parse : string -> result Presentation)
    (request : Request) (pw : PdfWorld) (w : World) :
  (files request !! "file" = None
   \/ exists file, files request !! "file" = Some file
                   /\ (filename file = "" \/ ~ has_allowed_extension (filename file))) ->
  exists message,
    convert_pptx_to_pdf secure_filename save soffice send_from_directory request pw
    = (JsonReply {| body := JObj [("error", JStr message)]; status := 400 |}, pw)
    /\ (convert_pptx_to_text secure_filename save parse request w).1
       = {| body := JObj [("error", JStr message)]; status := 400 |}.
Proof.
  intros Hbad. unfold convert_pptx_to_pdf, convert_pptx_to_text.
  destruct Hbad as [Hnone | (file & Hfile & Hname)].
  - rewrite Hnone. by exists "No file provided".
  - rewrite Hfile, validation_rejects by done.
    by exists "Invalid file or file type".
Qed.

Section PdfView.
Variable secure_filename : string -> string.
Variable save : FileStorage -> string -> gmap string string
                -> result (gmap string string).
Variable soffice : string -> string -> gmap string string -> Completion.
Variable FileResponse : Type.
Variable send_from_directory : string -> string -> gmap string string
                               -> result FileResponse.
Variable request : Request.
Variable file : FileStorage.
Variable pdf_filename : string.
Variable w : PdfWorld.

Hypothesis file_part : files request !! "file" = Some file.
Hypothesis file_named : filename file <> "".
Hypothesis file_allowed : has_allowed_extension (filename file).
Hypothesis pdf_named :
  pdf_filename_of (secure_filename (filename file)) = Ok pdf_filename.

Lemma pdf_view_accepted :
  convert_pptx_to_pdf secure_filename save soffice send_from_directory request w
  = (match (convert_and_send save soffice send_from_directory file
              (upload_path (secure_filename (filename file)))
              pdf_filename (upload_path pdf_filename) w).1 with
     | inr reply => reply
     | inl raised => pdf_error_reply raised
     end,
     pdf_cleanup (upload_path (secure_filename (filename file)))
       (upload_path pdf_filename)
       (convert_and_send save soffice send_from_directory file
          (upload_path (secure_filename (filename file)))
          pdf_filename (upload_path pdf_filename) w).2).
Proof.
  unfold convert_pptx_to_pdf.
  rewrite file_part, validation_accepts, pdf_named by done.
  by destruct (convert_and_send _ _ _ _ _ _ _ _).
Qed.

(** X17. The answer to an accepted upload is the converted file exactly
    when saving succeeded, [soffice] ended in time with status 0, the
    PDF is there afterwards and [send_from_directory] returned its
    response. Every other run is answered with a JSON error and status
    500: the fixed timeout message when [soffice] ran out of time, the
    prefix "PDF conversion failed: " with the missing-output text when
    [soffice] ended well and left no PDF, and the same prefix with the
    exception's text when saving raised. *)
Theorem pdf_view_answer :
  let filepath := upload_path (secure_filename (filename file)) in
  let pdf_filepath := upload_path pdf_filename in
  let reply :=
    (convert_pptx_to_pdf secure_filename save soffice send_from_directory
       request w).1 in
  (forall response,
      reply = FileReply response
      <-> exists files1 files2,
            save file filepath (pdf_fs w) = Ok files1
            /\ soffice UPLOAD_FOLDER filepath files1 = Completed files2
            /\ is_Some (files2 !! pdf_filepath)
            /\ send_from_directory UPLOAD_FOLDER pdf_filename files2 = Ok response)
  /\ (forall response,
         reply = JsonReply response ->
         status response = 500
         /\ exists message, body response = JObj [("error", JStr message)])
  /\ (forall files1 files2,
         save file filepath (pdf_fs w) = Ok files1 ->
         soffice UPLOAD_FOLDER filepath files1 = TimeoutExpired files2 ->
         reply = JsonReply
                   {| body := JObj [("error",
                                     JStr "PDF conversion timed out after 60 seconds.")];
                      status := 500 |})
  /\ (forall files1 files2,
         save file filepath (pdf_fs w) = Ok files1 ->
         soffice UPLOAD_FOLDER filepath files1 = Completed files2 ->
         files2 !! pdf_filepath = None ->
         reply = JsonReply
                   {| body := JObj [("error",
                                     JStr ("PDF conversion failed: "
                                           +:+ "PDF conversion failed, output file not found."))];
                      status := 500 |})
  /\ (forall e,
         save file filepath (pdf_fs w) = Raise e ->
         reply = JsonReply
                   {| body := JObj [("error", JStr ("PDF conversion failed: " +:+ e))];
                      status := 500 |}).
Proof.
  intros filepath pdf_filepath reply. unfold reply.
  rewrite pdf_view_accepted. cbn [fst]. unfold convert_and_send.
  fold filepath. fold pdf_filepath. cbn [pdf_fs record_pdf_call].
  destruct (save file filepath (pdf_fs w)) as [files1|e] eqn:Hsave.
  - destruct (soffice UPLOAD_FOLDER filepath files1)
      as [files2|files2|e files2] eqn:Hrun.
    + destruct (decide (is_Some (files2 !! pdf_filepath))) as [Hout|Hout].
      * destruct (send_from_directory UPLOAD_FOLDER pdf_filename files2)
          as [sent|e] eqn:Hsend; cbn [fst pdf_error_reply].
        -- split; [|split; [|split; [|split]]].
           ++ intros response. split.
              ** intros [= <-]. by exists files1, files2.
              ** intros (f1 & f2 & [= <-] & Hrun' & _ & Hsent).
                 rewrite Hrun in Hrun'. injection Hrun' as <-. congruence.
           ++ intros response Heq. discriminate Heq.
           ++ intros f1 f2 [= <-] Hrun'. congruence.
           ++ intros f1 f2 [= <-] Hrun' Hnone.
              rewrite Hrun in Hrun'. injection Hrun' as <-.
              rewrite Hnone in Hout. by destruct Hout.
           ++ intros e' Hsave'. discriminate Hsave'.
        -- split; [|split; [|split; [|split]]].
           ++ intros response. split; [intros Heq; discriminate Heq|].
              intros (f1 & f2 & [= <-] & Hrun' & _ & Hsent).
              rewrite Hrun in Hrun'. injection Hrun' as <-. congruence.
           ++ intros response [= <-]. simpl. eauto.
           ++ intros f1 f2 [= <-] Hrun'. congruence.
           ++ intros f1 f2 [= <-] Hrun' Hnone.
              rewrite Hrun in Hrun'. injection Hrun' as <-.
              rewrite Hnone in Hout. by destruct Hout.
           ++ intros e' Hsave'. discriminate Hsave'.
      * cbn [fst pdf_error_reply].
        split; [|split; [|split; [|split]]].
        -- intros response. split; [intros Heq; discriminate Heq|].
           intros (f1 & f2 & [= <-] & Hrun' & Hsome & _).
           rewrite Hrun in Hrun'. injection Hrun' as <-. by destruct Hout.
        -- intros response [= <-]. simpl. eauto.
        -- intros f1 f2 [= <-] Hrun'. congruence.
        -- done.
        -- intros e' Hsave'. discriminate Hsave'.
    + cbn [fst pdf_error_reply].
      split; [|split; [|split; [|split]]].
      * intros response. split; [intros Heq; discriminate Heq|].
        intros (f1 & f2 & [= <-] & Hrun' & _). congruence.
      * intros response [= <-]. simpl. eauto.
      * done.
      * intros f1 f2 [= <-] Hrun'. congruence.
      * intros e' Hsave'. discriminate Hsave'.
    + cbn [fst pdf_error_reply].
      split; [|split; [|split; [|split]]].
      * intros response. split; [intros Heq; discriminate Heq|].
        intros (f1 & f2 & [= <-] & Hrun' & _). congruence.
      * intros response [= <-]. simpl. eauto.
      * intros f1 f2 [= <-] Hrun'. congruence.
      * intros f1 f2 [= <-] Hrun'. congruence.
      * intros e' Hsave'. discriminate Hsave'.
  - cbn [fst pdf_error_reply].
    split; [|split; [|split; [|split]]].
    + intros response. split; [intros Heq; discriminate Heq|].
      intros (f1 & f2 & Hsave' & _). discriminate Hsave'.
    + intros response [= <-]. simpl. eauto.
    + intros f1 f2 Hsave'. discriminate Hsave'.
    + intros f1 f2 Hsave'. discriminate Hsave'.
    + by intros e' [= <-].
Qed.

(** X18. After an accepted upload neither the upload nor the PDF is
    left in the upload folder, whether the conversion ended well, ran
    out of time or failed; every other path holds what the last step
    that ran ([soffice], else [save], else nothing) left there. *)
Theorem pdf_view_removes_upload_and_output :
  let filepath := upload_path (secure_filename (filename file)) in
  let pdf_filepath := upload_path pdf_filename in
  let after :=
    pdf_fs (convert_pptx_to_pdf secure_filename save soffice
              send_from_directory request w).2 in
  let left_ :=
    match save file filepath (pdf_fs w) with
    | Raise _ => pdf_fs w
    | Ok files1 =>
        match soffice UPLOAD_FOLDER filepath files1 with
        | Completed files2 => files2
        | TimeoutExpired files2 => files2
        | ProcessError _ files2 => files2
        end
    end in
  after = delete pdf_filepath (delete filepath left_)
  /\ after !! filepath = None
  /\ after !! pdf_filepath = None
  /\ (forall path, path <> filepath -> path <> pdf_filepath ->
                   after !! path = left_ !! path).
Proof.
  intros filepath pdf_filepath after left_.
  assert (Hafter : after = delete pdf_filepath (delete filepath left_)).
  { unfold after, left_. rewrite pdf_view_accepted. cbn [snd].
    rewrite pdf_fs_cleanup. fold filepath. fold pdf_filepath. do 2 f_equal.
    unfold convert_and_send. cbn [pdf_fs record_pdf_call].
    destruct (save file filepath (pdf_fs w)) as [files1|e]; [|done].
    destruct (soffice UPLOAD_FOLDER filepath files1) as [files2|files2|e files2];
      [|done|done].
    destruct (decide (is_Some (files2 !! pdf_filepath))); [|done].
    by destruct (send_from_directory UPLOAD_FOLDER pdf_filename files2). }
  split; [done|]. rewrite Hafter. split; [|split].
  - destruct (decide (filepath = pdf_filepath)) as [->|Hne].
    + apply lookup_delete_eq.
    + rewrite lookup_delete_ne by done. apply lookup_delete_eq.
  - apply lookup_delete_eq.
  - intros path Hfile Hpdf. by rewrite !lookup_delete_ne.
Qed.
End PdfView.

(** ** The views on the worked upload *)

Lemma pptx_upload_allowed : has_allowed_extension (filename pptx_upload).
Proof. exists "Deck", "PPTX". split; [reflexivity|]. split; [reflexivity|]. by left. Defined.

Lemma pptx_upload_named : filename pptx_upload <> "".
Proof. discriminate. Defined.

Lemma pptx_upload_part : files pptx_request !! "file" = Some pptx_upload.
Proof. reflexivity. Defined.

Lemma text_view_answer_witness :
  files pptx_request !! "file" = Some pptx_upload
  /\ filename pptx_upload <> ""
  /\ has_allowed_extension (filename pptx_upload)
  /\ well_formed example_presentation
  /\ (convert_pptx_to_text id example_save example_parse_ok pptx_request
        empty_world).1
     = {| body := JObj [("success", JBool true);
                        ("text", JStr (Py.join Py.nl (blocks example_presentation)));
                        ("filename", JStr "Deck.PPTX")];
          status := 200 |}.
Proof.
  split; [exact pptx_upload_part|]. split; [exact pptx_upload_named|].
  split; [exact pptx_upload_allowed|].
  split; [exact example_presentation_well_formed|].
  exact (proj1 (text_view_answer id example_save example_parse_ok pptx_request
                  pptx_upload empty_world pptx_upload_part pptx_upload_named
                  pptx_upload_allowed)
           example_presentation_well_formed).
Defined.

Lemma text_view_removes_upload_witness :
  files pptx_request !! "file" = Some pptx_upload
  /\ filename pptx_upload <> ""
  /\ has_allowed_extension (filename pptx_upload)
  /\ (let filepath := upload_path (id (filename pptx_upload)) in
      let after := fs (convert_pptx_to_text id example_save example_parse
                         pptx_request empty_world).2 in
      let saved := match example_save pptx_upload filepath (fs empty_world) with
                   | Ok files1 => files1
                   | Raise _ => fs empty_world
                   end in
      after = delete filepath saved
      /\ after !! filepath = None
      /\ (forall path, path <> filepath -> after !! path = saved !! path)).
Proof.
  split; [exact pptx_upload_part|]. split; [exact pptx_upload_named|].
  split; [exact pptx_upload_allowed|].
  exact (text_view_removes_upload id example_save example_parse pptx_request
           pptx_upload empty_world pptx_upload_part pptx_upload_named
           pptx_upload_allowed).
Defined.

Lemma text_view_calls_witness :
  files pptx_request !! "file" = Some pptx_upload
  /\ filename pptx_upload <> ""
  /\ has_allowed_extension (filename pptx_upload)
  /\ (let filepath := upload_path (id (filename pptx_upload)) in
      calls (convert_pptx_to_text id example_save example_parse pptx_request
               empty_world).2
      = calls empty_world
        ++ match example_save pptx_upload filepath (fs empty_world) with
           | Raise _ =>
               CallSave filepath
               :: (if decide (is_Some (fs empty_world !! filepath))
                   then [CallRemove filepath] else [])
           | Ok files1 =>
               CallSave filepath :: CallExtract filepath
               :: (if decide (is_Some (files1 !! filepath))
                   then [CallRemove filepath] else [])
           end).
Proof.
  split; [exact pptx_upload_part|]. split; [exact pptx_upload_named|].
  split; [exact pptx_upload_allowed|].
  exact (text_view_calls id example_save example_parse pptx_request
           pptx_upload empty_world pptx_upload_part pptx_upload_named
           pptx_upload_allowed).
Defined.

Lemma pdf_view_rejects_like_text_view_witness :
  (files example_request !! "file" = None
   \/ exists file, files example_request !! "file" = Some file
                   /\ (filename file = ""
                       \/ ~ has_allowed_extension (filename file)))
  /\ exists message,
      convert_pptx_to_pdf id example_save example_soffice example_send
        example_request empty_pdf_world
      = (JsonReply {| body := JObj [("error", JStr message)]; status := 400 |},
         empty_pdf_world)
      /\ (convert_pptx_to_text id example_save example_parse example_request
            empty_world).1
         = {| body := JObj [("error", JStr message)]; status := 400 |}.
Proof.
  split; [exact example_request_invalid|].
  exact (pdf_view_rejects_like_text_view id example_save example_soffice string
           example_send example_parse example_request empty_pdf_world
           empty_world example_request_invalid).
Defined.

Lemma pptx_upload_pdf_named : pdf_filename_of (id (filename pptx_upload)) = Ok "Deck.pdf".
Proof. reflexivity. Defined.

Lemma pdf_view_answer_witness :
  files pptx_request !! "file" = Some pptx_upload
  /\ filename pptx_upload <> ""
  /\ has_allowed_extension (filename pptx_upload)
  /\ pdf_filename_of (id (filename pptx_upload)) = Ok "Deck.pdf"
  /\ (forall response,
         (convert_pptx_to_pdf id example_save example_soffice example_send
            pptx_request empty_pdf_world).1 = FileReply response
         <-> exists files1 files2,
               example_save pptx_upload (upload_path (id (filename pptx_upload)))
                 (pdf_fs empty_pdf_world) = Ok files1
               /\ example_soffice UPLOAD_FOLDER
                    (upload_path (id (filename pptx_upload))) files1
                  = Completed files2
               /\ is_Some (files2 !! upload_path "Deck.pdf")
               /\ example_send UPLOAD_FOLDER "Deck.pdf" files2 = Ok response).
Proof.
  split; [exact pptx_upload_part|]. split; [exact pptx_upload_named|].
  split; [exact pptx_upload_allowed|]. split; [exact pptx_upload_pdf_named|].
  exact (proj1 (pdf_view_answer id example_save example_soffice string
                  example_send pptx_request pptx_upload "Deck.pdf"
                  empty_pdf_world pptx_upload_part pptx_upload_named
                  pptx_upload_allowed pptx_upload_pdf_named)).
Defined.

Lemma pdf_view_removes_upload_and_output_witness :
  files pptx_request !! "file" = Some pptx_upload
  /\ filename pptx_upload <> ""
  /\ has_allowed_extension (filename pptx_upload)
  /\ pdf_filename_of (id (filename pptx_upload)) = Ok "Deck.pdf"
  /\ (let filepath := upload_path (id (filename pptx_upload)) in
      let pdf_filepath := upload_path "Deck.pdf" in
      let after :=
        pdf_fs (convert_pptx_to_pdf id example_save slow_soffice example_send
                  pptx_request empty_pdf_world).2 in
      let left_ :=
        match example_save pptx_upload filepath (pdf_fs empty_pdf_world) with
        | Raise _ => pdf_fs empty_pdf_world
        | Ok files1 =>
            match slow_soffice UPLOAD_FOLDER filepath files1 with
            | Completed files2 => files2
            | TimeoutExpired files2 => files2
            | ProcessError _ files2 => files2
            end
        end in
      after = delete pdf_filepath (delete filepath left_)
      /\ after !! filepath = None
      /\ after !! pdf_filepath = None
      /\ (forall path, path <> filepath -> path <> pdf_filepath ->
                       after !! path = left_ !! path)).
Proof.
  split; [exact pptx_upload_part|]. split; [exact pptx_upload_named|].
  split; [exact pptx_upload_allowed|]. split; [exact pptx_upload_pdf_named|].
  exact (pdf_view_removes_upload_and_output id example_save slow_soffice string
           example_send pptx_request pptx_upload "Deck.pdf" empty_pdf_world
           pptx_upload_part pptx_upload_named pptx_upload_allowed
           pptx_upload_pdf_named).
Defined.

(** The worked upload through both views: the text, and the PDF that
    [soffice] wrote; with a [soffice] that runs out of time, the timeout
    answer, and nothing left in the folder. *)
Example worked_upload_through_the_views :
  (convert_pptx_to_text id example_save example_parse_ok pptx_request
     empty_world).1
  = {| body := JObj [("success", JBool true);
                     ("text", JStr (Py.join Py.nl (blocks example_presentation)));
                     ("filename", JStr "Deck.PPTX")];
       status := 200 |}
  /\ convert_pptx_to_pdf id example_save example_soffice example_send
       pptx_request empty_pdf_world
     = (FileReply "%PDF-1.7",
        {| pdf_fs := ∅;
           pdf_calls := [PdfSave "uploads/Deck.PPTX"; PdfConvert "uploads/Deck.PPTX";
                         PdfSend "Deck.pdf"; PdfRemove "uploads/Deck.PPTX";
                         PdfRemove "uploads/Deck.pdf"] |})
  /\ convert_pptx_to_pdf id example_save slow_soffice example_send
       pptx_request empty_pdf_world
     = (JsonReply
          {| body := JObj [("error",
                            JStr "PDF conversion timed out after 60 seconds.")];
             status := 500 |},
        {| pdf_fs := ∅;
           pdf_calls := [PdfSave "uploads/Deck.PPTX"; PdfConvert "uploads/Deck.PPTX";
                         PdfRemove "uploads/Deck.PPTX";
                         PdfRemove "uploads/Deck.pdf"] |}).
Proof. by vm_compute. Qed.
